(** * Cloudflare webhook endpoint of Sentry: a shallow embedding

    Source: [src/sentry/integrations/cloudflare/webhook.py]
    (class [CloudflareWebhookEndpoint]).

    Conventions of the embedding.
    - The endpoint is Python 2 code ([six], [__future__]). A byte string
      ([str]: the request body, a header, a literal) is a Rocq [string];
      text ([unicode]: the strings [json.loads] builds) is the [string] of
      its UTF-8 encoding, so text is ASCII exactly when every byte of it is
      below 0x80.
    - A w-bit machine word is a [Z] with the wrap-around written out.
    - A Python [dict] with string keys is a [gmap string _].
    - A Python exception is the [Raise] case of [result]. *)

From Stdlib Require Import ZArith String Ascii List Lia Bool.
From stdpp Require Import base option gmap strings list pretty.
Import ListNotations.

Local Open Scope string_scope.
Local Open Scope Z_scope.

(** ** Bytes and text *)

(** [ord(c)] for a one-character string. *)
Definition ord (c : ascii) : Z := Z.of_N (N_of_ascii c).

Definition chr (b : Z) : ascii := ascii_of_N (Z.to_N (b mod 256)).

(** The bytes of a string. *)
Definition bytes_of (s : string) : list Z := map ord (list_ascii_of_string s).

(** Whether the ascii codec accepts the string: every byte is below 0x80. *)
Definition is_ascii (s : string) : bool :=
  forallb (fun c => ord c <? 128) (list_ascii_of_string s).

(** ** SHA-256 (FIPS 180-4), the [digestmod] handed to [hmac.new] *)

Module SHA256.

Definition wrap32 (x : Z) : Z := x mod 2 ^ 32.
Definition add32 (x y : Z) : Z := wrap32 (x + y).
Definition not32 (x : Z) : Z := Z.lxor x 0xFFFFFFFF.
Definition shr (n x : Z) : Z := Z.shiftr x n.
Definition rotr (n x : Z) : Z :=
  Z.lor (Z.shiftr x n) (wrap32 (Z.shiftl x (32 - n))).

Definition Ch (x y z : Z) : Z := Z.lxor (Z.land x y) (Z.land (not32 x) z).
Definition Maj (x y z : Z) : Z :=
  Z.lxor (Z.lxor (Z.land x y) (Z.land x z)) (Z.land y z).
Definition bsig0 (x : Z) : Z := Z.lxor (Z.lxor (rotr 2 x) (rotr 13 x)) (rotr 22 x).
Definition bsig1 (x : Z) : Z := Z.lxor (Z.lxor (rotr 6 x) (rotr 11 x)) (rotr 25 x).
Definition ssig0 (x : Z) : Z := Z.lxor (Z.lxor (rotr 7 x) (rotr 18 x)) (shr 3 x).
Definition ssig1 (x : Z) : Z := Z.lxor (Z.lxor (rotr 17 x) (rotr 19 x)) (shr 10 x).

(** The round constants: the first thirty-two bits of the fractional parts
    of the cube roots of the first sixty-four primes. *)
Definition is_prime (p : Z) : bool :=
  forallb (fun d => negb (p mod d =? 0)) (map Z.of_nat (seq 2 (Z.to_nat p - 2))).

Definition first_primes (count : nat) : list Z :=
  firstn count (List.filter is_prime (map Z.of_nat (seq 2 400))).

(** The integer cube root of [n], built bit by bit from bit [bits - 1] down. *)
Fixpoint cube_root (bits : nat) (n r : Z) : Z :=
  match bits with
  | O => r
  | S b =>
      let c := r + 2 ^ Z.of_nat b in
      cube_root b n (if c * c * c <=? n then c else r)
  end.

Definition cube_root_fraction (p : Z) : Z :=
  wrap32 (cube_root 36 (p * 2 ^ 96) 0).

Definition round_constants : list Z := Eval vm_compute in map cube_root_fraction (first_primes 64).

(** The eight working variables a..h, also the running hash value. *)
Record regs := Regs { ra : Z; rb : Z; rc : Z; rd : Z; re : Z; rf : Z; rg : Z; rh : Z }.

Definition initial_hash : regs :=
  Regs 0x6a09e667 0xbb67ae85 0x3c6ef372 0xa54ff53a
       0x510e527f 0x9b05688c 0x1f83d9ab 0x5be0cd19.

Definition word_at (ws : list Z) (i : nat) : Z := nth i ws 0.

(** One round with constant [k] and schedule word [wt]. *)
Definition round (k wt : Z) (s : regs) : regs :=
  let t1 := add32 (add32 (add32 (add32 (rh s) (bsig1 (re s))) (Ch (re s) (rf s) (rg s))) k) wt in
  let t2 := add32 (bsig0 (ra s)) (Maj (ra s) (rb s) (rc s)) in
  Regs (add32 t1 t2) (ra s) (rb s) (rc s) (add32 (rd s) t1) (re s) (rf s) (rg s).

(** The 64 rounds over a sliding window of the last sixteen schedule
    words: the head of the window is W_t, and W_{t+16} is appended. *)
Fixpoint rounds (ks : list Z) (window : list Z) (s : regs) : regs :=
  match ks with
  | [] => s
  | k :: ks' =>
      let next := add32 (add32 (add32 (ssig1 (word_at window 14)) (word_at window 9))
                               (ssig0 (word_at window 1))) (word_at window 0) in
      rounds ks' (tl window ++ [next]) (round k (word_at window 0) s)
  end.

Definition compress (h : regs) (block : list Z) : regs :=
  let s := rounds round_constants block h in
  Regs (add32 (ra h) (ra s)) (add32 (rb h) (rb s)) (add32 (rc h) (rc s))
       (add32 (rd h) (rd s)) (add32 (re h) (re s)) (add32 (rf h) (rf s))
       (add32 (rg h) (rg s)) (add32 (rh h) (rh s)).

(** Big-endian bytes of a word of [n] bytes, and back. *)
Fixpoint be_bytes (n : nat) (x : Z) : list Z :=
  match n with
  | O => []
  | S n' => Z.land (Z.shiftr x (8 * Z.of_nat n')) 0xFF :: be_bytes n' x
  end.

Definition be_word (bs : list Z) : Z :=
  fold_left (fun acc b => Z.lor (Z.shiftl acc 8) b) bs 0.

(** Padding: the bit 1, zeros up to 56 mod 64, the bit length on 8 bytes. *)
Definition pad (msg : list Z) : list Z :=
  let len := Z.of_nat (length msg) in
  let zeros := Z.to_nat ((55 - len) mod 64) in
  msg ++ [0x80] ++ repeat 0 zeros ++ be_bytes 8 (8 * len).

(** Cut a byte string into words of four bytes ([fuel] bounds the count). *)
Fixpoint words_of (fuel : nat) (bs : list Z) : list Z :=
  match fuel, bs with
  | S fuel', _ :: _ => be_word (firstn 4 bs) :: words_of fuel' (skipn 4 bs)
  | _, _ => []
  end.

Fixpoint blocks_of (fuel : nat) (ws : list Z) : list (list Z) :=
  match fuel, ws with
  | S fuel', _ :: _ => firstn 16 ws :: blocks_of fuel' (skipn 16 ws)
  | _, _ => []
  end.

Definition digest_of (h : regs) : list Z :=
  concat (map (be_bytes 4) [ra h; rb h; rc h; rd h; re h; rf h; rg h; rh h]).

(** [sha256(msg).digest()] *)
Definition digest (msg : list Z) : list Z :=
  let padded := pad msg in
  let ws := words_of (length padded) padded in
  digest_of (fold_left compress (blocks_of (length ws) ws) initial_hash).

Definition block_size : nat := 64.

End SHA256.

(** ** HMAC (RFC 2104), as [hmac.new(key, msg, digestmod).hexdigest()] *)

Module HMAC.

Definition xor_with (c : Z) (bs : list Z) : list Z := map (fun b => Z.lxor b c) bs.

(** Keys longer than a block are hashed first; then zero-padded to a block. *)
Definition block_key (key : list Z) : list Z :=
  let k := if (SHA256.block_size <? length key)%nat then SHA256.digest key else key in
  k ++ repeat 0 (SHA256.block_size - length k).

Definition digest (key msg : list Z) : list Z :=
  let k := block_key key in
  SHA256.digest (xor_with 0x5C k ++ SHA256.digest (xor_with 0x36 k ++ msg)).

Definition hex_digit (n : Z) : ascii :=
  if n <? 10 then chr (48 + n) else chr (87 + n).

Fixpoint hex (bs : list Z) : string :=
  match bs with
  | [] => EmptyString
  | b :: bs' => String (hex_digit (Z.shiftr b 4)) (String (hex_digit (Z.land b 0xF)) (hex bs'))
  end.

Definition hexdigest (key msg : list Z) : string := hex (digest key msg).

End HMAC.

(** ** Python values and exceptions *)

Inductive exn : Type :=
| KeyError
| TypeError
| AttributeError
| IndexError
| UnicodeDecodeError
| UnicodeEncodeError
| AuthenticationFailed.

(** The outcome of evaluating Python code: a value, or a raised exception. *)
Inductive result (A : Type) : Type :=
| Ok (a : A)
| Raise (e : exn).
Arguments Ok {A} a.
Arguments Raise {A} e.

Definition bind {A B : Type} (r : result A) (k : A -> result B) : result B :=
  match r with
  | Ok a => k a
  | Raise e => Raise e
  end.

Notation "x <- r ;; k" := (bind r (fun x => k))
  (at level 100, r at next level, right associativity).

(** [s.encode('utf-8')] on a byte string [s]. Python 2 first decodes [s]
    with the ascii codec, which raises [UnicodeDecodeError] on a byte above
    0x7F; what it accepts encodes to the same bytes. *)
Definition encode_utf8 (s : string) : result (list Z) :=
  if is_ascii s then Ok (bytes_of s) else Raise UnicodeDecodeError.

(** The values [json.loads] builds. A float keeps its IEEE-754 bit pattern
    and is never inspected. *)
#[local] Set Warnings "-register-all".
Inductive json : Type :=
| JNull
| JBool (b : bool)
| JInt (n : Z)
| JFloat (bits : Z)
| JStr (s : string)
| JList (l : list json)
| JDict (d : gmap string json).
#[local] Set Warnings "register-all".

(** [obj[k]] for a string key [k]. *)
Definition getitem (obj : json) (k : string) : result json :=
  match obj with
  | JDict d => match d !! k with Some v => Ok v | None => Raise KeyError end
  | _ => Raise TypeError
  end.

(** [obj[0]] *)
Definition getitem0 (obj : json) : result json :=
  match obj with
  | JList (x :: _) => Ok x
  | JList [] => Raise IndexError
  | JStr (String c _) => Ok (JStr (String c EmptyString))
  | JStr EmptyString => Raise IndexError
  | JDict _ => Raise KeyError
  | _ => Raise TypeError
  end.

(** [obj[k] = v] for a string key [k]; the result is the object afterwards. *)
Definition setitem (obj : json) (k : string) (v : json) : result json :=
  match obj with
  | JDict d => Ok (JDict (<[k := v]> d))
  | _ => Raise TypeError
  end.

(** [obj.get(k, dflt)] *)
Definition dict_get (obj : json) (k : string) (dflt : json) : result json :=
  match obj with
  | JDict d => Ok (default dflt (d !! k))
  | _ => Raise AttributeError
  end.

(** [obj[k1][k2]...[kn]] *)
Fixpoint getitem_path (obj : json) (path : list string) : result json :=
  match path with
  | [] => Ok obj
  | k :: path' => child <- getitem obj k ;; getitem_path child path'
  end.

(** [obj[k1]...[kn][k] = v]: the objects on the path are mutated in place,
    so [obj] afterwards is [obj] with the new child at each level. *)
Fixpoint setitem_path (obj : json) (path : list string) (k : string) (v : json)
  : result json :=
  match path with
  | [] => setitem obj k v
  | k1 :: path' =>
      child <- getitem obj k1 ;;
      child' <- setitem_path child path' k v ;;
      setitem obj k1 child'
  end.

(** [s == v] for a text [s] and a loaded value [v]. *)
Definition str_eq (s : string) (v : json) : bool :=
  match v with
  | JStr s' => String.eqb s s'
  | _ => false
  end.

(** [six.text_type(n)] for an integer. *)
Definition text_type (n : Z) : string := pretty n.

(** ** [django.utils.crypto.constant_time_compare]

    The pure-Python body: unequal lengths return at once, otherwise every
    pair of characters is folded into [result] with [|=] and [^]. *)

Fixpoint compare_loop (val1 val2 : list ascii) (result : Z) : Z :=
  match val1, val2 with
  | x :: val1', y :: val2' =>
      compare_loop val1' val2' (Z.lor result (Z.lxor (ord x) (ord y)))
  | _, _ => result
  end.

Definition constant_time_compare (val1 val2 : string) : bool :=
  if negb (String.length val1 =? String.length val2)%nat then false
  else compare_loop (list_ascii_of_string val1) (list_ascii_of_string val2) 0 =? 0.

(** What an observer of the control flow sees of one run: the outcome of
    the length test, one entry per loop iteration, and the final test. *)
Inductive observation : Type :=
| ObsLengthsDiffer (b : bool)
| ObsIteration
| ObsFinalTest.

Fixpoint compare_loop_run (val1 val2 : list ascii) (result : Z)
  : Z * list observation :=
  match val1, val2 with
  | x :: val1', y :: val2' =>
      let '(r, tr) :=
        compare_loop_run val1' val2' (Z.lor result (Z.lxor (ord x) (ord y))) in
      (r, ObsIteration :: tr)
  | _, _ => (result, [])
  end.

Definition constant_time_compare_run (val1 val2 : string)
  : bool * list observation :=
  if negb (String.length val1 =? String.length val2)%nat
  then (false, [ObsLengthsDiffer true])
  else
    let '(r, tr) :=
      compare_loop_run (list_ascii_of_string val1) (list_ascii_of_string val2) 0 in
    (r =? 0, ObsLengthsDiffer false :: tr ++ [ObsFinalTest]).

(** ** The models the endpoint reads *)

Inductive User : Type :=
| AnonymousUser
| AuthenticatedUser (id : Z).

Definition is_authenticated (u : User) : bool :=
  match u with
  | AnonymousUser => false
  | AuthenticatedUser _ => true
  end.

(** [user.id], [None] for the anonymous user. *)
Definition user_id (u : User) : option Z :=
  match u with
  | AnonymousUser => None
  | AuthenticatedUser id => Some id
  end.

Record ApiToken : Type := { token_user_id : Z; token_value : string }.

(** [token.user]: the owner of a token is a stored user. *)
Definition token_user (t : ApiToken) : User := AuthenticatedUser (token_user_id t).

Record Organization : Type := { organization_id : Z; organization_slug : string }.

Record Team : Type := { team_id : Z }.

Record Project : Type := {
  project_id : Z;
  project_slug : string;
  project_organization_id : Z;
  project_team_id : Z
}.

(** [get_dsn_public] is the value of [key.get_dsn(public=True)]. *)
Record ProjectKey : Type := { projectkey_project_id : Z; get_dsn_public : string }.

Record Request : Type := {
  HTTP_X_SIGNATURE_HMAC_SHA256_HEX : option string;
  HTTP_X_SIGNATURE_KEY_VARIANT : option string;
  body : string;
  user : User;
  auth : option ApiToken
}.

Record Response : Type := { response_data : option json; status_code : Z }.

(** The collaborators outside the endpoint.
    - [json_loads]: [sentry.utils.json.loads], [None] when it raises
      [ValueError] or [TypeError].
    - [authenticate_credentials]: [TokenAuthentication().authenticate_credentials],
      [Some t] when it returns the pair [(t.user, t)], [None] when it raises
      [AuthenticationFailed].
    - [cloudflare_secret_key]: [options.get('cloudflare.secret-key')].
    - [Organization_get_for_user], [Team_get_for_user]: the manager methods
      [Organization.objects.get_for_user] and [Team.objects.get_for_user].
    - [Project_objects], [ProjectKey_objects]: the rows of the two tables. *)
Record Env : Type := {
  json_loads : string -> option json;
  authenticate_credentials : json -> option ApiToken;
  cloudflare_secret_key : string;
  Organization_get_for_user : User -> string -> list Organization;
  Team_get_for_user : option Organization -> User -> string -> list Team;
  Project_objects : list Project;
  ProjectKey_objects : list ProjectKey
}.

(** [Project.objects.filter(organization=org, team__in=teams)]. Every row
    has an organization, so [organization=None] selects no row. *)
Definition Project_filter (env : Env) (org : option Organization) (teams : list Team)
  : list Project :=
  List.filter
    (fun p =>
       match org with
       | Some o => project_organization_id p =? organization_id o
       | None => false
       end
       && existsb (fun t => team_id t =? project_team_id p) teams)
    (Project_objects env).

(** [ProjectKey.objects.filter(project=project)]. Every row has a project,
    so [project=None] selects no row. *)
Definition ProjectKey_filter (env : Env) (project : option Project) : list ProjectKey :=
  List.filter
    (fun k =>
       match project with
       | Some p => projectkey_project_id k =? project_id p
       | None => false
       end)
    (ProjectKey_objects env).

(** A dict display [{k1: v1, ...}] with distinct literal keys. *)
Definition dict_of (items : list (string * json)) : json :=
  JDict (list_to_map items).

(** A dict comprehension [{key(o): value(o) for o in l}]: later items win. *)
Definition dict_comprehension {A : Type} (key : A -> string) (value : A -> json)
  (l : list A) : json :=
  JDict (fold_left (fun m o => <[key o := value o]> m) l ∅).

Definition nonempty {A : Type} (l : list A) : bool :=
  match l with [] => false | _ :: _ => true end.

(** ** The endpoint *)

(** [Response({'install': install, 'proceed': True})] *)
Definition proceed_response (install : json) : Response :=
  {| response_data := Some (dict_of [("install", install); ("proceed", JBool true)]);
     status_code := 200 |}.

(** [Response({'proceed': False}, 401)] *)
Definition unauthorized_response : Response :=
  {| response_data := Some (dict_of [("proceed", JBool false)]);
     status_code := 401 |}.

Definition requires_auth {A : Type}
  (func : Request -> json -> A -> result (Response * json))
  : Request -> json -> A -> result (Response * json) :=
  fun request data args =>
    if negb (is_authenticated (user request))
    then Ok (unauthorized_response, data)
    else func request data args.

(** [hmac.new(key=key.encode('utf-8'), msg=payload.encode('utf-8'),
    digestmod=sha256).hexdigest()], the second argument of the comparison
    in [verify]. [payload] is [request.body], a byte string. The key is the
    literal ['test-key'] or the configured option; the option is taken as a
    byte string like the literal, and what is proved of a key that has to
    be encoded assumes it ASCII, where a byte string and text encode
    alike. *)
Definition expected_signature (payload key : string) : result string :=
  key' <- encode_utf8 key ;;
  msg <- encode_utf8 payload ;;
  Ok (HMAC.hexdigest key' msg).

Definition verify (payload key signature : string) : result bool :=
  expected <- expected_signature payload key ;;
  Ok (constant_time_compare signature expected).

(** [verify] with the control flow of its comparison observed; nothing is
    observed of a call that raises before it compares. *)
Definition verify_run (payload key signature : string)
  : result bool * list observation :=
  match expected_signature payload key with
  | Ok expected =>
      let '(outcome, trace) := constant_time_compare_run signature expected in
      (Ok outcome, trace)
  | Raise e => (Raise e, [])
  end.

(** *** The signature as the specification words it

    HMAC as RFC 2104 defines it over a hash [H] of block length [B]:
    [H(K xor opad, H(K xor ipad, text))], where [ipad] is the byte 0x36 and
    [opad] the byte 0x5C repeated [B] times, and [K] is the key with zeros
    appended up to [B] bytes, hashed first when longer than [B]. It is
    written apart from [HMAC] above, to be compared with it. *)

Module RFC2104.

Definition ipad (B : nat) : list Z := repeat 0x36 B.
Definition opad (B : nat) : list Z := repeat 0x5C B.

Fixpoint xor (xs ys : list Z) : list Z :=
  match xs, ys with
  | x :: xs', y :: ys' => Z.lxor x y :: xor xs' ys'
  | _, _ => []
  end.

Definition hmac (H : list Z -> list Z) (B : nat) (K text : list Z) : list Z :=
  let K0 := if (length K <=? B)%nat then K else H K in
  let K' := (K0 ++ repeat 0 (B - length K0))%list in
  H (xor K' (opad B) ++ H (xor K' (ipad B) ++ text))%list.

Fixpoint hex_encode (bs : list Z) : list ascii :=
  match bs with
  | [] => []
  | b :: bs' =>
      nth (Z.to_nat (b / 16)) (list_ascii_of_string "0123456789abcdef") "0"%char
      :: nth (Z.to_nat (b mod 16)) (list_ascii_of_string "0123456789abcdef") "0"%char
      :: hex_encode bs'
  end.

End RFC2104.

(** [hmac_sha256_hex(P, S)] of the specification: HMAC-SHA256 over the raw
    payload bytes, keyed by the secret, hex-encoded. *)
Definition hmac_sha256_hex (payload secret : string) : string :=
  string_of_list_ascii
    (RFC2104.hex_encode
       (RFC2104.hmac SHA256.digest 64 (bytes_of secret) (bytes_of payload))).

Definition authenticate_from_json_token (env : Env) (data : json)
  : result (option ApiToken) :=
  match getitem_path data ["authentications"; "account"; "token"; "token"] with
  | Raise KeyError => Ok None
  | Raise e => Raise e
  | Ok token =>
      match authenticate_credentials env token with
      | Some t => Ok (Some t)
      | None => Raise AuthenticationFailed
      end
  end.

Definition organization_from_json (env : Env) (request : Request) (data : json)
  (scope : string) : result (option Organization) :=
  match getitem_path data ["install"; "options"; "organization"] with
  | Raise KeyError => Ok None
  | Raise e => Raise e
  | Ok organization_id' =>
      let organizations :=
        Organization_get_for_user env (user request) scope in
      Ok (List.find (fun org => str_eq (text_type (organization_id org)) organization_id')
                    organizations)
  end.

Definition project_from_json (env : Env) (request : Request) (data : json)
  (scope : string) : result (option Project) :=
  match getitem_path data ["install"; "options"; "project"] with
  | Raise KeyError => Ok None
  | Raise e => Raise e
  | Ok project_id' =>
      org <- organization_from_json env request data "project:write" ;;
      let projects :=
        Project_filter env org
          (Team_get_for_user env org (user request) "project:write") in
      Ok (List.find (fun project => str_eq (text_type (project_id project)) project_id')
                    projects)
  end.

(** [return Response({'install': data['install'], 'proceed': True})], with
    the payload as the handler leaves it. *)
Definition install_response (data : json) : result (Response * json) :=
  install <- getitem data "install" ;;
  Ok (proceed_response install, data).

Definition schema_properties : list string := ["install"; "schema"; "properties"].
Definition install_options : list string := ["install"; "options"].

(** [data['install']['options'][name] =
     data['install']['schema']['properties'][name]['enum'][0]] *)
Definition select_first (data : json) (name : string) : result json :=
  enum <- getitem_path data (schema_properties ++ [name; "enum"]) ;;
  first <- getitem0 enum ;;
  setitem_path data install_options name first.

(** The three schema fragments (the dict displays of lines 96-105,
    124-133 and 151-159). *)
Definition organization_schema (organizations : list Organization) : json :=
  dict_of
    [("type", JStr "string");
     ("title", JStr "Sentry Organization");
     ("order", JInt 1);
     ("enum", JList (map (fun o => JStr (text_type (organization_id o))) organizations));
     ("enumNames",
      dict_comprehension (fun o => text_type (organization_id o))
                         (fun o => JStr (organization_slug o)) organizations);
     ("required", JBool true)].

Definition project_schema (projects : list Project) : json :=
  dict_of
    [("type", JStr "string");
     ("title", JStr "Sentry Project");
     ("order", JInt 2);
     ("enum", JList (map (fun o => JStr (text_type (project_id o))) projects));
     ("enumNames",
      dict_comprehension (fun o => text_type (project_id o))
                         (fun o => JStr (project_slug o)) projects);
     ("required", JBool true)].

Definition dsn_schema (keys : list ProjectKey) : json :=
  dict_of
    [("type", JStr "string");
     ("title", JStr "DSN");
     ("description",
      JStr "Your automatically configured DSN for communicating with Sentry.");
     ("placeholder", JStr "https://public_key@sentry.io/1");
     ("order", JInt 3);
     ("enum", JList (map (fun o => JStr (get_dsn_public o)) keys));
     ("required", JBool true)].

Definition on_project_change (env : Env)
  : Request -> json -> bool -> result (Response * json) :=
  requires_auth (fun request data is_test =>
    project <- project_from_json env request data "project:write" ;;
    let keys := ProjectKey_filter env project in
    data <- setitem_path data schema_properties "dsn" (dsn_schema keys) ;;
    data <- (if nonempty keys then select_first data "dsn" else Ok data) ;;
    install_response data).

Definition on_organization_change (env : Env)
  : Request -> json -> bool -> result (Response * json) :=
  requires_auth (fun request data is_test =>
    org <- organization_from_json env request data "project:write" ;;
    let projects :=
      Project_filter env org
        (Team_get_for_user env org (user request) "project:write") in
    data <- setitem_path data schema_properties "project" (project_schema projects) ;;
    if nonempty projects then
      data <- select_first data "project" ;;
      on_project_change env request data is_test
    else install_response data).

Definition on_account_change (env : Env)
  : Request -> json -> bool -> result (Response * json) :=
  requires_auth (fun request data is_test =>
    let organizations :=
      Organization_get_for_user env (user request) "project:write" in
    data <- setitem_path data schema_properties "organization"
      (organization_schema organizations) ;;
    if nonempty organizations then
      data <- select_first data "organization" ;;
      on_organization_change env request data is_test
    else install_response data).

Definition on_preview (env : Env) (request : Request) (data : json) (is_test : bool)
  : result (Response * json) :=
  if negb (is_authenticated (user request)) then install_response data
  else on_account_change env request data is_test.

(** *** Logging *)

(** The message of a log record: ['cloudflare.webhook.{}'.format(event)]
    keeps the event it was formatted from; the other three are the fixed
    messages [cloudflare.webhook.invalid-json], [...invalid-signature] and
    [...invalid-variant]. *)
Inductive LogMessage : Type :=
| EventMessage (event : json)
| InvalidJson
| InvalidSignature
| InvalidVariant.

(** ['cloudflare.webhook.{}'.format(event)] (line 193). The template is a
    byte string, so Python 2 formats the event with [str]: a text event
    with a character outside ASCII raises [UnicodeEncodeError]; every other
    value, a container included, formats through its ASCII [repr]. *)
Definition formattable (event : json) : bool :=
  match event with
  | JStr s => is_ascii s
  | _ => true
  end.

Definition format_event (event : json) : result LogMessage :=
  if formattable event then Ok (EventMessage event) else Raise UnicodeEncodeError.

Inductive LogLevel : Type := INFO | ERROR.

Record LoggingData : Type := {
  log_user_id : option Z;
  log_signature : option string;
  log_variant : option string
}.

Record LogRecord : Type := {
  log_level : LogLevel;
  log_message : LogMessage;
  log_extra : LoggingData
}.

(** *** [post] *)

(** What a call of [post] leaves behind: the response (or the exception
    that escapes), the request object and the parsed payload as they are
    at that point, and the log records emitted. *)
Record Outcome : Type := {
  response : result Response;
  request_after : Request;
  data_after : option json;
  log : list LogRecord
}.

Definition bad_request : Response := {| response_data := None; status_code := 400 |}.

(** The local variables of [post] at line 214, where the signature is
    about to be verified. *)
Record Frame : Type := {
  frame_request : Request;
  frame_data : json;
  frame_event : json;
  frame_signature : string;
  frame_variant : string;
  frame_key : string;
  frame_logging_data : LoggingData;
  frame_log : list LogRecord
}.

Inductive Stage : Type :=
| Returned (o : Outcome)
| Verifying (f : Frame).

(** The request object after [request.user = token.user] and
    [request.auth = token]. *)
Definition adopt (request : Request) (token : ApiToken) : Request :=
  {| HTTP_X_SIGNATURE_HMAC_SHA256_HEX := HTTP_X_SIGNATURE_HMAC_SHA256_HEX request;
     HTTP_X_SIGNATURE_KEY_VARIANT := HTTP_X_SIGNATURE_KEY_VARIANT request;
     body := body request;
     user := token_user token;
     auth := Some token |}.

(** Lines 184-190: the secondary authentication. *)
Definition secondary_auth (env : Env) (request : Request) (data : json)
  (logging_data : LoggingData) : result (Request * LoggingData) :=
  if negb (is_authenticated (user request)) then
    token <- authenticate_from_json_token env data ;;
    match token with
    | Some token =>
        Ok (adopt request token,
            {| log_user_id := user_id (token_user token);
               log_signature := log_signature logging_data;
               log_variant := log_variant logging_data |})
    | None => Ok (request, logging_data)
    end
  else Ok (request, logging_data).

(** [data.get('app', {}).get('id')] *)
Definition app_id_of (data : json) : result json :=
  app <- dict_get data "app" (JDict ∅) ;; dict_get app "id" JNull.

(** [app_id not in ('local', '')] *)
Definition not_local_app (app_id : json) : bool :=
  negb (str_eq "local" app_id || str_eq "" app_id).

(** [if not header]: a header that is absent or empty is rejected. *)
Definition header_value (header : option string) : option string :=
  match header with
  | Some EmptyString => None
  | _ => header
  end.

Definition log_record (level : LogLevel) (message : LogMessage) (extra : LoggingData)
  : LogRecord :=
  {| log_level := level; log_message := message; log_extra := extra |}.

(** [return Response(status=400)] after [logger.error(message, extra=...)] *)
Definition reject (request : Request) (data : option json) (log : list LogRecord)
  (message : LogMessage) (logging_data : LoggingData) : Stage :=
  Returned {| response := Ok bad_request;
              request_after := request;
              data_after := data;
              log := log ++ [log_record ERROR message logging_data] |}.

(** An exception that escapes [post]. *)
Definition escape (e : exn) (request : Request) (data : option json)
  (log : list LogRecord) : Stage :=
  Returned {| response := Raise e;
              request_after := request;
              data_after := data;
              log := log |}.

(** Lines 171-175: the [logging_data] dict as first built. *)
Definition initial_logging_data (request : Request) : LoggingData :=
  {| log_user_id :=
       if is_authenticated (user request) then user_id (user request) else None;
     log_signature := HTTP_X_SIGNATURE_HMAC_SHA256_HEX request;
     log_variant := HTTP_X_SIGNATURE_KEY_VARIANT request |}.

(** Lines 201-207: the key for a variant, [None] for the [else] branch
    that rejects the request. *)
Definition select_key (env : Env) (variant : string) : option string :=
  if String.eqb variant "test" then Some "test-key"
  else if String.eqb variant "1" then Some (cloudflare_secret_key env)
  else None.

(** Lines 169-212 of [post]: parsing, secondary authentication, the header
    checks and the choice of the key. *)
Definition post_checks (env : Env) (request : Request) : Stage :=
  let signature := HTTP_X_SIGNATURE_HMAC_SHA256_HEX request in
  let variant := HTTP_X_SIGNATURE_KEY_VARIANT request in
  let logging_data := initial_logging_data request in
  let payload := body request in
  match json_loads env payload with
  | None => reject request None [] InvalidJson logging_data
  | Some data =>
  (* check for secondary auth *)
  match secondary_auth env request data logging_data with
  | Raise e => escape e request (Some data) []
  | Ok (request, logging_data) =>
  match dict_get data "event" JNull with
  | Raise e => escape e request (Some data) []
  | Ok event =>
  match format_event event with
  | Raise e => escape e request (Some data) []
  | Ok message =>
  let log := [log_record INFO message logging_data] in
  match header_value signature with
  | None => reject request (Some data) log InvalidSignature logging_data
  | Some signature =>
  match header_value variant with
  | None => reject request (Some data) log InvalidVariant logging_data
  | Some variant =>
  match select_key env variant with
  | None => reject request (Some data) log InvalidVariant logging_data
  | Some key =>
  match app_id_of data with
  | Raise e => escape e request (Some data) log
  | Ok app_id =>
  if not_local_app app_id && String.eqb variant "test"
  then reject request (Some data) log InvalidVariant logging_data
  else Verifying {| frame_request := request;
                    frame_data := data;
                    frame_event := event;
                    frame_signature := signature;
                    frame_variant := variant;
                    frame_key := key;
                    frame_logging_data := logging_data;
                    frame_log := log |}
  end end end end end end end end.

(** Lines 218-229 of [post]: the dispatch on the event. *)
Definition dispatch (env : Env) (request : Request) (data : json) (event : json)
  (is_test : bool) : result (Response * json) :=
  if str_eq "option-change:account" event then
    on_account_change env request data is_test
  else if str_eq "option-change:organization" event then
    on_organization_change env request data is_test
  else if str_eq "option-change:project" event then
    on_project_change env request data is_test
  else if str_eq "preview" event then
    on_preview env request data is_test
  else install_response data.

(** Lines 214-229 of [post], from the frame [post_checks] hands over. The
    payload of an outcome whose handler raised is not tracked. *)
Definition post_verified (env : Env) (payload : string) (f : Frame) : Outcome :=
  match verify payload (frame_key f) (frame_signature f) with
  | Raise e =>
    {| response := Raise e;
       request_after := frame_request f;
       data_after := Some (frame_data f);
       log := frame_log f |}
  | Ok false =>
    {| response := Ok bad_request;
       request_after := frame_request f;
       data_after := Some (frame_data f);
       log := frame_log f ++ [log_record ERROR InvalidSignature (frame_logging_data f)] |}
  | Ok true =>
    match dispatch env (frame_request f) (frame_data f) (frame_event f)
                   (String.eqb (frame_variant f) "test") with
    | Ok (resp, data) =>
        {| response := Ok resp;
           request_after := frame_request f;
           data_after := Some data;
           log := frame_log f |}
    | Raise e =>
        {| response := Raise e;
           request_after := frame_request f;
           data_after := None;
           log := frame_log f |}
    end
  end.

Definition post (env : Env) (request : Request) : Outcome :=
  match post_checks env request with
  | Returned o => o
  | Verifying f => post_verified env (body request) f
  end.

(** The projects the caller sees under the organization the payload names. *)
Definition visible_projects (env : Env) (request : Request) (data : json)
  : list Project :=
  match organization_from_json env request data "project:write" with
  | Ok org =>
      Project_filter env org
        (Team_get_for_user env org (user request) "project:write")
  | Raise _ => []
  end.

(** A verified request: [post] reaches line 214 with the frame [f], and the
    signature check of that line succeeds. *)
Definition verified (env : Env) (request : Request) (f : Frame) : Prop :=
  post_checks env request = Verifying f /\
  verify (body request) (frame_key f) (frame_signature f) = Ok true.

(** A payload whose [install.schema.properties] is the object [props]. *)
Definition assemble (d inst sch props : gmap string json) : json :=
  JDict (<["install" :=
            JDict (<["schema" := JDict (<["properties" := JDict props]> sch)]> inst)]> d).

(** ** Concrete requests and collaborators, in the manner of the endpoint's
    test helpers *)

Module Fixture.

(** JSON text. *)
Definition quoted (s : string) : string :=
  String (chr 34) EmptyString +:+ s +:+ String (chr 34) EmptyString.
Definition member (k v : string) : string := quoted k +:+ ": " +:+ v.
Fixpoint members (ms : list string) : string :=
  match ms with
  | [] => EmptyString
  | [m] => m
  | m :: ms' => m +:+ ", " +:+ members ms'
  end.
Definition object (ms : list string) : string := "{" +:+ members ms +:+ "}".

(** The text [caf\u00e9], whose last character is the two bytes 0xC3 0xA9
    of its UTF-8 encoding. *)
Definition cafe : string :=
  "caf" +:+ String (chr 195) (String (chr 169) EmptyString).

(** A payload as text and as the value [json.loads] gives for it. *)
Record Payload : Type := { text : string; value : json }.

Definition empty_install : Payload :=
  {| text := object [member "options" (object []);
                     member "schema" (object [member "properties" (object [])])];
     value := dict_of [("options", dict_of []);
                       ("schema", dict_of [("properties", dict_of [])])] |}.

Definition app (id : string) : Payload :=
  {| text := object [member "id" (quoted id)];
     value := dict_of [("id", JStr id)] |}.

Definition token_payload (tok : string) : Payload :=
  {| text := object [member "account"
               (object [member "token" (object [member "token" (quoted tok)])])];
     value := dict_of [("account",
                dict_of [("token", dict_of [("token", JStr tok)])])] |}.

(** [{"app": {"id": app_id}, "event": event, "install": {...}}] *)
Definition event_payload (app_id event : string) : Payload :=
  {| text := object [member "app" (text (app app_id));
                     member "event" (quoted event);
                     member "install" (text empty_install)];
     value := dict_of [("app", value (app app_id));
                       ("event", JStr event);
                       ("install", value empty_install)] |}.

(** The same without the [event] member. *)
Definition eventless_payload : Payload :=
  {| text := object [member "app" (text (app "local"));
                     member "install" (text empty_install)];
     value := dict_of [("app", value (app "local"));
                       ("install", value empty_install)] |}.

(** With an embedded token. *)
Definition token_event_payload (tok event : string) : Payload :=
  {| text := object [member "app" (text (app "local"));
                     member "authentications" (text (token_payload tok));
                     member "event" (quoted event);
                     member "install" (text empty_install)];
     value := dict_of [("app", value (app "local"));
                       ("authentications", value (token_payload tok));
                       ("event", JStr event);
                       ("install", value empty_install)] |}.

Definition payloads : list Payload :=
  [ event_payload "local" "option-change:account";
    event_payload "local" "option-change:organization";
    event_payload "local" "option-change:project";
    event_payload "" "option-change:account";
    event_payload "some-real-app" "option-change:account";
    event_payload "local" "";
    eventless_payload;
    token_event_payload "valid-token" "option-change:account";
    token_event_payload "expired-token" "option-change:account" ].

(** [json.loads] on the texts above; any other body is taken as malformed. *)
Definition loads (s : string) : option json :=
  value <$> List.find (fun p => String.eqb (text p) s) payloads.

Definition acme : Organization := {| organization_id := 1; organization_slug := "acme" |}.
Definition backend_team : Team := {| team_id := 3 |}.
Definition web : Project :=
  {| project_id := 2; project_slug := "web";
     project_organization_id := 1; project_team_id := 3 |}.
Definition web_key : ProjectKey :=
  {| projectkey_project_id := 2; get_dsn_public := "https://abc123@sentry.io/2" |}.

Definition member_token : ApiToken := {| token_user_id := 7; token_value := "valid-token" |}.

(** User 7 is a member of [acme] and of its team; user 8 belongs to no
    organization; the only live token is [valid-token], owned by user 7. *)
Definition env : Env :=
  {| json_loads := loads;
     authenticate_credentials := fun tok =>
       if str_eq "valid-token" tok then Some member_token else None;
     cloudflare_secret_key := "production-secret";
     Organization_get_for_user := fun u scope =>
       match u with
       | AuthenticatedUser 7 => [acme]
       | _ => []
       end;
     Team_get_for_user := fun org u scope =>
       match org, u with
       | Some o, AuthenticatedUser 7 =>
           if organization_id o =? 1 then [backend_team] else []
       | _, _ => []
       end;
     Project_objects := [web];
     ProjectKey_objects := [web_key] |}.

(** A parsed payload that only carries the two selections. *)
Definition options_payload (organization project : string) : json :=
  dict_of [("install",
            dict_of [("options",
                      dict_of [("organization", JStr organization);
                               ("project", JStr project)])])].

(** A request of user 7, whose body plays no role. *)
Definition member_request : Request :=
  {| HTTP_X_SIGNATURE_HMAC_SHA256_HEX := None;
     HTTP_X_SIGNATURE_KEY_VARIANT := None;
     body := EmptyString;
     user := AuthenticatedUser 7;
     auth := None |}.

(** A request signed with the test key. *)
Definition test_request (p : Payload) (u : User) : Request :=
  {| HTTP_X_SIGNATURE_HMAC_SHA256_HEX := Some (hmac_sha256_hex (text p) "test-key");
     HTTP_X_SIGNATURE_KEY_VARIANT := Some "test";
     body := text p;
     user := u;
     auth := None |}.

(** The same without the signature header. *)
Definition unsigned_request (p : Payload) (u : User) : Request :=
  {| HTTP_X_SIGNATURE_HMAC_SHA256_HEX := None;
     HTTP_X_SIGNATURE_KEY_VARIANT := Some "test";
     body := text p;
     user := u;
     auth := None |}.

(** An anonymous request with a live embedded token and no signature
    header. *)
Definition unsigned_token_request : Request :=
  unsigned_request (token_event_payload "valid-token" "option-change:account")
                   AnonymousUser.

End Fixture.

(** ** The wizard on the options and the schema properties

    On a payload whose [install.options] and [install.schema.properties]
    are objects, the three steps read and write these two objects only.
    The definitions below follow the handlers on the pair of them. *)

(** A payload whose [install.options] is [opts] and whose
    [install.schema.properties] is [props]. *)
Definition payload (d inst sch opts props : gmap string json) : json :=
  assemble d (<["options" := JDict opts]> inst) sch props.

(** The organization [organization_from_json] resolves from the options. *)
Definition selected_organization (env : Env) (u : User) (scope : string)
  (opts : gmap string json) : option Organization :=
  match opts !! "organization" with
  | None => None
  | Some organization_id' =>
      List.find (fun org => str_eq (text_type (organization_id org)) organization_id')
                (Organization_get_for_user env u scope)
  end.

(** The project [project_from_json] resolves from the options. *)
Definition selected_project (env : Env) (u : User) (opts : gmap string json)
  : option Project :=
  match opts !! "project" with
  | None => None
  | Some project_id' =>
      let org := selected_organization env u "project:write" opts in
      List.find (fun project => str_eq (text_type (project_id project)) project_id')
                (Project_filter env org (Team_get_for_user env org u "project:write"))
  end.

(** [if enum: options[name] = enum[0]] *)
Definition pick (name : string) (enum : list json) (opts : gmap string json)
  : gmap string json :=
  match enum with
  | [] => opts
  | first :: _ => <[name := first]> opts
  end.

Definition project_step (env : Env) (u : User)
  (s : gmap string json * gmap string json) : gmap string json * gmap string json :=
  let keys := ProjectKey_filter env (selected_project env u (fst s)) in
  (pick "dsn" (map (fun o => JStr (get_dsn_public o)) keys) (fst s),
   <["dsn" := dsn_schema keys]> (snd s)).

Definition organization_step (env : Env) (u : User)
  (s : gmap string json * gmap string json) : gmap string json * gmap string json :=
  let org := selected_organization env u "project:write" (fst s) in
  let projects :=
    Project_filter env org (Team_get_for_user env org u "project:write") in
  let props := <["project" := project_schema projects]> (snd s) in
  match projects with
  | [] => (fst s, props)
  | p :: _ =>
      project_step env u (<["project" := JStr (text_type (project_id p))]> (fst s), props)
  end.

Definition account_step (env : Env) (u : User)
  (s : gmap string json * gmap string json) : gmap string json * gmap string json :=
  let organizations := Organization_get_for_user env u "project:write" in
  let props := <["organization" := organization_schema organizations]> (snd s) in
  match organizations with
  | [] => (fst s, props)
  | o :: _ =>
      organization_step env u
        (<["organization" := JStr (text_type (organization_id o))]> (fst s), props)
  end.

(** The three decorated handlers, as one family. *)
Definition is_step (env : Env)
  (handler : Request -> json -> bool -> result (Response * json)) : Prop :=
  handler = on_account_change env
  \/ handler = on_organization_change env
  \/ handler = on_project_change env.

(** Whether an evaluation returned rather than raised. *)
Definition returned {A : Type} (r : result A) : bool :=
  match r with
  | Ok _ => true
  | Raise _ => false
  end.

(** Whether a log record was emitted with [logger.error]. *)
Definition is_error (r : LogRecord) : bool :=
  match log_level r with
  | ERROR => true
  | INFO => false
  end.

(** The collaborators with another token resolver. *)
Definition with_resolver (env : Env) (resolver : json -> option ApiToken) : Env :=
  {| json_loads := json_loads env;
     authenticate_credentials := resolver;
     cloudflare_secret_key := cloudflare_secret_key env;
     Organization_get_for_user := Organization_get_for_user env;
     Team_get_for_user := Team_get_for_user env;
     Project_objects := Project_objects env;
     ProjectKey_objects := ProjectKey_objects env |}.

(** ** A second set of collaborators, with more than one of each *)

Module Scenario.

Definition acme : Organization := {| organization_id := 1; organization_slug := "acme" |}.
Definition globex : Organization := {| organization_id := 4; organization_slug := "globex" |}.
Definition backend_team : Team := {| team_id := 3 |}.

Definition web : Project :=
  {| project_id := 2; project_slug := "web";
     project_organization_id := 1; project_team_id := 3 |}.
Definition api : Project :=
  {| project_id := 5; project_slug := "api";
     project_organization_id := 1; project_team_id := 3 |}.
(** A project of [acme] in a team the caller is not in. *)
Definition vault : Project :=
  {| project_id := 6; project_slug := "vault";
     project_organization_id := 1; project_team_id := 9 |}.

Definition web_key : ProjectKey :=
  {| projectkey_project_id := 2; get_dsn_public := "https://abc123@sentry.io/2" |}.
Definition web_key_2 : ProjectKey :=
  {| projectkey_project_id := 2; get_dsn_public := "https://def456@sentry.io/2" |}.

Definition member_token : ApiToken := {| token_user_id := 7; token_value := "valid-token" |}.

(** Payloads as text and value, for the events the first set lacks. *)
Definition payloads : list Fixture.Payload :=
  [ Fixture.event_payload "local" "option-change:account";
    Fixture.event_payload "local" "preview";
    Fixture.event_payload "local" "uninstall";
    Fixture.event_payload "some-real-app" "preview";
    Fixture.token_event_payload "expired-token" "preview";
    Fixture.event_payload Fixture.cafe "preview";
    Fixture.event_payload "local" Fixture.cafe;
    {| Fixture.text := Fixture.object [Fixture.member "event" (Fixture.quoted "uninstall")];
       Fixture.value := dict_of [("event", JStr "uninstall")] |};
    {| Fixture.text := "[]"; Fixture.value := JList [] |} ].

Definition loads (s : string) : option json :=
  Fixture.value <$> List.find (fun p => String.eqb (Fixture.text p) s) payloads.

(** User 7 sees [acme] and [globex], and is in [backend_team] of [acme];
    [web] has two keys, [api] none; user 8 sees nothing. *)
Definition env : Env :=
  {| json_loads := loads;
     authenticate_credentials := fun tok =>
       if str_eq "valid-token" tok then Some member_token else None;
     cloudflare_secret_key := "production-secret";
     Organization_get_for_user := fun u scope =>
       match u with
       | AuthenticatedUser 7 => [acme; globex]
       | _ => []
       end;
     Team_get_for_user := fun org u scope =>
       match org, u with
       | Some o, AuthenticatedUser 7 =>
           if organization_id o =? 1 then [backend_team] else []
       | _, _ => []
       end;
     Project_objects := [web; api; vault];
     ProjectKey_objects := [web_key; web_key_2] |}.

(** A parsed payload with the given options and no schema property yet. *)
Definition data (opts : list (string * json)) : json :=
  dict_of [("event", JStr "option-change:account");
           ("install", dict_of [("options", dict_of opts);
                                ("product", JStr "sentry");
                                ("schema", dict_of [("properties", dict_of [])])])].

(** A request of the given user with the given headers and body. *)
Definition request (u : User) (signature variant : option string) (body' : string)
  : Request :=
  {| HTTP_X_SIGNATURE_HMAC_SHA256_HEX := signature;
     HTTP_X_SIGNATURE_KEY_VARIANT := variant;
     body := body';
     user := u;
     auth := None |}.

Definition member : Request := request (AuthenticatedUser 7) None None EmptyString.

(** An anonymous preview, signed with the test key. *)
Definition preview : Request :=
  Fixture.test_request (Fixture.event_payload "local" "preview") AnonymousUser.

(** An event the endpoint has no handler for, signed with the test key. *)
Definition uninstall : Request :=
  Fixture.test_request (Fixture.event_payload "local" "uninstall") AnonymousUser.

(** A preview for a real app, signed with the production secret. *)
Definition production_preview : Request :=
  request AnonymousUser
    (Some (hmac_sha256_hex (Fixture.text (Fixture.event_payload "some-real-app" "preview"))
             "production-secret"))
    (Some "1")
    (Fixture.text (Fixture.event_payload "some-real-app" "preview")).

(** A preview for an app whose id has an accented character, signed with
    the production secret over the bytes of the body. *)
Definition accented_preview : Request :=
  request AnonymousUser
    (Some (hmac_sha256_hex (Fixture.text (Fixture.event_payload Fixture.cafe "preview"))
             "production-secret"))
    (Some "1")
    (Fixture.text (Fixture.event_payload Fixture.cafe "preview")).

(** An event with an accented character, in a request without headers. *)
Definition accented_event : Request :=
  request AnonymousUser None None
    (Fixture.text (Fixture.event_payload "local" Fixture.cafe)).

(** The body of one payload under the signature of another. *)
Definition tampered : Request :=
  request AnonymousUser
    (Some (hmac_sha256_hex (Fixture.text (Fixture.event_payload "local" "preview"))
             "test-key"))
    (Some "test")
    (Fixture.text (Fixture.event_payload "local" "uninstall")).

(** A member's request whose body carries a token that does not resolve. *)
Definition member_with_stale_token : Request :=
  request (AuthenticatedUser 7) None (Some "test")
    (Fixture.text (Fixture.token_event_payload "expired-token" "preview")).

(** A body that is valid JSON but not an object. *)
Definition array_body : Request :=
  request AnonymousUser (Some "00") (Some "test") "[]".

(** A body that is not JSON. *)
Definition garbage : Request :=
  request (AuthenticatedUser 7)
    (Some (hmac_sha256_hex "{not json" "test-key")) (Some "test") "{not json".

End Scenario.

(** * Properties *)

(** ** Known answers for the digest and the MAC *)

Example round_constants_ends :
  length SHA256.round_constants = 64%nat
  /\ nth 0 SHA256.round_constants 0 = 0x428a2f98
  /\ nth 63 SHA256.round_constants 0 = 0xc67178f2.
Proof. vm_compute. auto. Qed.

Example sha256_empty :
  HMAC.hex (SHA256.digest []) =
  "e3b0c44298fc1c149afbf4c8996fb92427ae41e4649b934ca495991b7852b855".
Proof. vm_compute. reflexivity. Qed.

Example sha256_abc :
  HMAC.hex (SHA256.digest (bytes_of "abc")) =
  "ba7816bf8f01cfea414140de5dae2223b00361a396177a9cb410ff61f20015ad".
Proof. vm_compute. reflexivity. Qed.

Example sha256_two_blocks :
  HMAC.hex (SHA256.digest
    (bytes_of "abcdbcdecdefdefgefghfghighijhijkijkljklmklmnlmnomnopnopq")) =
  "248d6a61d20638b8e5c026930c3e6039a33ce45964ff2167f6ecedd419db06c1".
Proof. vm_compute. reflexivity. Qed.

Example hmac_sha256_fox :
  HMAC.hexdigest (bytes_of "key")
    (bytes_of "The quick brown fox jumps over the lazy dog") =
  "f7bc83f430538424b13298e6aa6fb143ef4d59a14946175997479dbc2d1a3cd8".
Proof. vm_compute. reflexivity. Qed.

(** The specification's signature on the same message, and on test case 2
    of RFC 4231. *)
Example hmac_sha256_hex_fox :
  hmac_sha256_hex "The quick brown fox jumps over the lazy dog" "key" =
  "f7bc83f430538424b13298e6aa6fb143ef4d59a14946175997479dbc2d1a3cd8".
Proof. vm_compute. reflexivity. Qed.

Example hmac_sha256_hex_rfc4231_2 :
  hmac_sha256_hex "what do ya want for nothing?" "Jefe" =
  "5bdcc146bf60754e6a042426089575c75a003f089d2739839dec58b964ec3843".
Proof. vm_compute. reflexivity. Qed.

(** ** Comparison *)

Lemma ord_inj (x y : ascii) : ord x = ord y -> x = y.
Proof.
  unfold ord. intros H. apply N2Z.inj in H.
  rewrite <- (ascii_N_embedding x), <- (ascii_N_embedding y). now rewrite H.
Qed.

Lemma string_length_list (s : string) :
  String.length s = length (list_ascii_of_string s).
Proof. induction s as [|c s IH]; simpl; congruence. Qed.

Lemma list_ascii_of_string_inj (s t : string) :
  list_ascii_of_string s = list_ascii_of_string t -> s = t.
Proof.
  intros H. rewrite <- (string_of_list_ascii_of_string s),
    <- (string_of_list_ascii_of_string t). now rewrite H.
Qed.

(** The accumulator ends at zero exactly when it started at zero and no
    pair of characters differed. *)
Lemma compare_loop_zero (val1 val2 : list ascii) :
  length val1 = length val2 ->
  forall result, compare_loop val1 val2 result = 0 <-> result = 0 /\ val1 = val2.
Proof.
  revert val2. induction val1 as [|x val1 IH]; intros [|y val2] Hlen result;
    simpl in *; try discriminate.
  - tauto.
  - injection Hlen as Hlen. rewrite (IH val2 Hlen).
    rewrite Z.lor_eq_0_iff, Z.lxor_eq_0_iff. split.
    + intros [[Hr Hxy] Hv]. apply ord_inj in Hxy. subst. auto.
    + intros [Hr Hv]. injection Hv as -> ->. auto.
Qed.

Lemma constant_time_compare_true (val1 val2 : string) :
  constant_time_compare val1 val2 = true <-> val1 = val2.
Proof.
  unfold constant_time_compare.
  destruct (String.length val1 =? String.length val2)%nat eqn:Hlen; simpl.
  - apply Nat.eqb_eq in Hlen. rewrite !string_length_list in Hlen.
    rewrite Z.eqb_eq, (compare_loop_zero _ _ Hlen). split.
    + intros [_ H]. now apply list_ascii_of_string_inj.
    + intros ->. auto.
  - split; [discriminate|]. intros ->. rewrite Nat.eqb_refl in Hlen. discriminate.
Qed.

(** The instrumented run computes the same accumulator, and its trace has
    one entry per pair of characters. *)
Lemma compare_loop_run_spec (val1 val2 : list ascii) (result : Z) :
  compare_loop_run val1 val2 result =
  (compare_loop val1 val2 result,
   repeat ObsIteration (Nat.min (length val1) (length val2))).
Proof.
  revert val2 result. induction val1 as [|x val1 IH]; intros [|y val2] result;
    simpl; try reflexivity.
  now rewrite IH.
Qed.

Lemma constant_time_compare_run_result (val1 val2 : string) :
  fst (constant_time_compare_run val1 val2) = constant_time_compare val1 val2.
Proof.
  unfold constant_time_compare_run, constant_time_compare.
  destruct (negb _); [reflexivity|]. now rewrite compare_loop_run_spec.
Qed.

Lemma constant_time_compare_run_trace (val1 val2 : string) :
  snd (constant_time_compare_run val1 val2) =
  if negb (String.length val1 =? String.length val2)%nat
  then [ObsLengthsDiffer true]
  else ObsLengthsDiffer false
         :: repeat ObsIteration (Nat.min (String.length val1) (String.length val2))
         ++ [ObsFinalTest].
Proof.
  unfold constant_time_compare_run.
  destruct (negb _); [reflexivity|].
  now rewrite compare_loop_run_spec, !string_length_list.
Qed.

(** ** The expected signature *)

Lemma hex_length (bs : list Z) : String.length (HMAC.hex bs) = (2 * length bs)%nat.
Proof. induction bs as [|b bs IH]; simpl; [reflexivity|]. rewrite IH. lia. Qed.

Lemma sha256_digest_length (msg : list Z) : length (SHA256.digest msg) = 32%nat.
Proof. reflexivity. Qed.

Lemma hexdigest_length (key msg : list Z) :
  String.length (HMAC.hexdigest key msg) = 64%nat.
Proof.
  unfold HMAC.hexdigest, HMAC.digest. now rewrite hex_length, sha256_digest_length.
Qed.

Lemma be_bytes_range (n : nat) (x : Z) :
  Forall (fun b => 0 <= b < 256) (SHA256.be_bytes n x).
Proof.
  induction n as [|n IH]; simpl; constructor; [|exact IH].
  change 0xFF with (Z.ones 8). rewrite Z.land_ones by lia.
  apply Z.mod_pos_bound. lia.
Qed.

Lemma sha256_digest_range (msg : list Z) :
  Forall (fun b => 0 <= b < 256) (SHA256.digest msg).
Proof.
  unfold SHA256.digest, SHA256.digest_of. apply Forall_concat, Forall_map.
  apply Forall_forall. intros x _. apply be_bytes_range.
Qed.

(** The two ways of writing a hex digit agree. *)
Lemma hex_digit_nth (d : Z) :
  0 <= d < 16 ->
  nth (Z.to_nat d) (list_ascii_of_string "0123456789abcdef") "0"%char
  = HMAC.hex_digit d.
Proof.
  intros H.
  assert (Hd : exists n, (n < 16)%nat /\ d = Z.of_nat n).
  { exists (Z.to_nat d). split; lia. }
  destruct Hd as (n & Hn & ->). rewrite Nat2Z.id.
  do 16 (destruct n as [|n]; [reflexivity|]). lia.
Qed.

Lemma hex_encode_hex (bs : list Z) :
  Forall (fun b => 0 <= b < 256) bs ->
  string_of_list_ascii (RFC2104.hex_encode bs) = HMAC.hex bs.
Proof.
  induction 1 as [|b bs Hb _ IH]; [reflexivity|].
  cbn [RFC2104.hex_encode HMAC.hex string_of_list_ascii]. rewrite IH.
  rewrite !hex_digit_nth.
  - rewrite Z.shiftr_div_pow2 by lia. change 0xF with (Z.ones 4).
    rewrite Z.land_ones by lia. reflexivity.
  - apply Z.mod_pos_bound. lia.
  - split; [apply Z.div_pos; lia | apply Z.div_lt_upper_bound; lia].
Qed.

Lemma xor_repeat (c : Z) (bs : list Z) :
  RFC2104.xor bs (repeat c (length bs)) = HMAC.xor_with c bs.
Proof.
  induction bs as [|b bs IH]; [reflexivity|].
  simpl. now rewrite IH.
Qed.

Lemma block_key_length (key : list Z) :
  length (HMAC.block_key key) = SHA256.block_size.
Proof.
  unfold HMAC.block_key, SHA256.block_size.
  destruct (64 <? length key)%nat eqn:E; rewrite length_app, repeat_length.
  - rewrite sha256_digest_length. reflexivity.
  - apply Nat.ltb_ge in E. lia.
Qed.

(** The library's computation is the MAC of RFC 2104. *)
Lemma hexdigest_is_rfc2104 (key msg : list Z) :
  HMAC.hexdigest key msg
  = string_of_list_ascii
      (RFC2104.hex_encode (RFC2104.hmac SHA256.digest 64 key msg)).
Proof.
  rewrite hex_encode_hex by apply sha256_digest_range.
  unfold HMAC.hexdigest, HMAC.digest, RFC2104.hmac, RFC2104.opad, RFC2104.ipad.
  pose proof (block_key_length key) as Hlen.
  assert (Hkey : ((if (length key <=? 64)%nat then key else SHA256.digest key)
                  ++ repeat 0 (64 - length (if (length key <=? 64)%nat
                                             then key else SHA256.digest key)))%list
                 = HMAC.block_key key).
  { unfold HMAC.block_key, SHA256.block_size.
    destruct (length key <=? 64)%nat eqn:E1, (64 <? length key)%nat eqn:E2;
      try reflexivity.
    - apply Nat.leb_le in E1. apply Nat.ltb_lt in E2. lia.
    - apply Nat.leb_gt in E1. apply Nat.ltb_ge in E2. lia. }
  rewrite Hkey. change 64%nat with SHA256.block_size.
  rewrite <- Hlen, !xor_repeat. reflexivity.
Qed.

Lemma expected_signature_ascii (payload key : string) :
  is_ascii key = true ->
  is_ascii payload = true ->
  expected_signature payload key = Ok (hmac_sha256_hex payload key).
Proof.
  intros Hkey Hpayload. unfold expected_signature, encode_utf8.
  rewrite Hkey, Hpayload. simpl. unfold hmac_sha256_hex.
  now rewrite hexdigest_is_rfc2104.
Qed.

(** Whatever the key, a payload with a byte above 0x7F makes the
    computation raise. *)
Lemma expected_signature_not_ascii (payload key : string) :
  is_ascii payload = false ->
  expected_signature payload key = Raise UnicodeDecodeError.
Proof.
  intros Hpayload. unfold expected_signature, encode_utf8.
  rewrite Hpayload. now destruct (is_ascii key).
Qed.

Lemma expected_signature_Ok (payload key expected : string) :
  expected_signature payload key = Ok expected ->
  is_ascii key = true /\ is_ascii payload = true
  /\ expected = hmac_sha256_hex payload key.
Proof.
  intros H.
  destruct (is_ascii key) eqn:Hkey, (is_ascii payload) eqn:Hpayload;
    try (unfold expected_signature, encode_utf8 in H;
         rewrite ?Hkey, ?Hpayload in H; discriminate H).
  rewrite expected_signature_ascii in H by assumption.
  injection H as <-. auto.
Qed.

(** [verify] returns [True] exactly on the signature of the specification,
    and then key and payload are ASCII. *)
Lemma verify_Ok_true (payload key signature : string) :
  verify payload key signature = Ok true
  <-> is_ascii key = true /\ is_ascii payload = true
      /\ signature = hmac_sha256_hex payload key.
Proof.
  unfold verify. split.
  - destruct (expected_signature payload key) as [expected|e] eqn:E; [|discriminate].
    simpl. intros [= H]. apply constant_time_compare_true in H.
    apply expected_signature_Ok in E as (? & ? & ->). auto.
  - intros (Hkey & Hpayload & ->).
    rewrite expected_signature_ascii by assumption. simpl.
    f_equal. now apply constant_time_compare_true.
Qed.

(** ** Nested payload access *)

Lemma getitem_path_app (obj : json) (p q : list string) :
  getitem_path obj (p ++ q) = (x <- getitem_path obj p ;; getitem_path x q).
Proof.
  revert obj. induction p as [|k p IH]; intros obj; simpl; [reflexivity|].
  destruct (getitem obj k); simpl; auto.
Qed.

Lemma getitem_dict (obj : json) (k : string) (v : json) :
  getitem obj k = Ok v -> exists d, obj = JDict d /\ d !! k = Some v.
Proof.
  destruct obj; simpl; try discriminate.
  destruct (d !! k) eqn:E; [|discriminate]. intros [= ->]. eauto.
Qed.

Lemma decompose_schema (data : json) (props : gmap string json) :
  getitem_path data schema_properties = Ok (JDict props) ->
  exists d inst sch, data = assemble d inst sch props
    /\ getitem data "install" = Ok (JDict inst).
Proof.
  unfold schema_properties. simpl. intros H.
  destruct (getitem data "install") as [i|] eqn:E1; [|discriminate]. simpl in H.
  destruct (getitem i "schema") as [s|] eqn:E2; [|discriminate]. simpl in H.
  destruct (getitem s "properties") as [p|] eqn:E3; [|discriminate]. simpl in H.
  injection H as ->.
  apply getitem_dict in E1 as (d & -> & Hd).
  apply getitem_dict in E2 as (inst & -> & Hi).
  apply getitem_dict in E3 as (sch & -> & Hs).
  exists d, inst, sch. split.
  - unfold assemble. now rewrite (insert_id sch), (insert_id inst), (insert_id d).
  - reflexivity.
Qed.

Lemma set_props (d inst sch props : gmap string json) (k : string) (v : json) :
  setitem_path (assemble d inst sch props) schema_properties k v =
  Ok (assemble d inst sch (<[k := v]> props)).
Proof.
  unfold assemble, schema_properties. simpl.
  rewrite lookup_insert_eq. simpl. rewrite lookup_insert_eq. simpl.
  rewrite lookup_insert_eq. simpl. now rewrite !insert_insert_eq.
Qed.

Lemma get_props (d inst sch props : gmap string json) (q : list string) :
  getitem_path (assemble d inst sch props) (schema_properties ++ q) =
  getitem_path (JDict props) q.
Proof.
  rewrite getitem_path_app. unfold assemble, schema_properties. simpl.
  rewrite lookup_insert_eq. simpl. rewrite lookup_insert_eq. simpl.
  now rewrite lookup_insert_eq.
Qed.

Lemma get_options (d inst sch props : gmap string json) (q : list string) :
  getitem_path (assemble d inst sch props) (install_options ++ q) =
  (o <- getitem (JDict inst) "options" ;; getitem_path o q).
Proof.
  rewrite getitem_path_app. unfold assemble, install_options. simpl.
  rewrite lookup_insert_eq. simpl. rewrite lookup_insert_ne by discriminate.
  now destruct (inst !! "options").
Qed.

Lemma set_options (d inst sch props opts : gmap string json) (k : string) (v : json) :
  inst !! "options" = Some (JDict opts) ->
  setitem_path (assemble d inst sch props) install_options k v =
  Ok (assemble d (<["options" := JDict (<[k := v]> opts)]> inst) sch props).
Proof.
  intros H. unfold assemble, install_options. simpl.
  rewrite lookup_insert_eq. simpl. rewrite lookup_insert_ne by discriminate. rewrite H. simpl.
  rewrite insert_insert_eq. do 4 f_equal. apply insert_insert_ne. discriminate.
Qed.

Lemma get_install (d inst sch props : gmap string json) :
  getitem (assemble d inst sch props) "install" =
  Ok (JDict (<["schema" := JDict (<["properties" := JDict props]> sch)]> inst)).
Proof. unfold assemble. simpl. now rewrite lookup_insert_eq. Qed.

(** ** The schema fragments *)

Lemma organization_schema_enum (organizations : list Organization) :
  getitem (organization_schema organizations) "enum" =
  Ok (JList (map (fun o => JStr (text_type (organization_id o))) organizations)).
Proof. reflexivity. Qed.

Lemma project_schema_enum (projects : list Project) :
  getitem (project_schema projects) "enum" =
  Ok (JList (map (fun o => JStr (text_type (project_id o))) projects)).
Proof. reflexivity. Qed.

Lemma dsn_schema_enum (keys : list ProjectKey) :
  getitem (dsn_schema keys) "enum" =
  Ok (JList (map (fun o => JStr (get_dsn_public o)) keys)).
Proof. reflexivity. Qed.

Lemma select_first_ok (d inst sch props opts : gmap string json)
  (name : string) (frag enum x : json) :
  inst !! "options" = Some (JDict opts) ->
  props !! name = Some frag ->
  getitem frag "enum" = Ok enum ->
  getitem0 enum = Ok x ->
  select_first (assemble d inst sch props) name =
  Ok (assemble d (<["options" := JDict (<[name := x]> opts)]> inst) sch props).
Proof.
  intros Hopts Hfrag Henum Hx. unfold select_first.
  rewrite get_props. simpl. rewrite Hfrag. simpl. rewrite Henum. simpl.
  rewrite Hx. simpl. now apply set_options.
Qed.

(** ** The lookups on an assembled payload *)

Lemma bind_Ok {A B : Type} (a : A) (k : A -> result B) : bind (Ok a) k = k a.
Proof. reflexivity. Qed.

Lemma find_single {A : Type} (f : A -> bool) (x : A) :
  f x = true -> List.find f [x] = Some x.
Proof. intros H. simpl. now rewrite H. Qed.

Lemma str_eq_refl (s : string) : str_eq s (JStr s) = true.
Proof. apply String.eqb_refl. Qed.

Lemma organization_from_json_single (env : Env) (request : Request)
  (d inst sch props opts : gmap string json) (scope : string) (o : Organization) :
  inst !! "options" = Some (JDict opts) ->
  opts !! "organization" = Some (JStr (text_type (organization_id o))) ->
  Organization_get_for_user env (user request) scope = [o] ->
  organization_from_json env request (assemble d inst sch props) scope = Ok (Some o).
Proof.
  intros Hopts Horg Hlist. unfold organization_from_json.
  change ["install"; "options"; "organization"] with (install_options ++ ["organization"])%list.
  rewrite get_options. unfold getitem at 1. rewrite Hopts. simpl. rewrite Horg. simpl.
  rewrite Hlist. f_equal. apply find_single, str_eq_refl.
Qed.

Lemma project_from_json_single (env : Env) (request : Request)
  (d inst sch props opts : gmap string json) (scope : string)
  (o : Organization) (p : Project) :
  inst !! "options" = Some (JDict opts) ->
  opts !! "organization" = Some (JStr (text_type (organization_id o))) ->
  opts !! "project" = Some (JStr (text_type (project_id p))) ->
  Organization_get_for_user env (user request) "project:write" = [o] ->
  Project_filter env (Some o)
    (Team_get_for_user env (Some o) (user request) "project:write") = [p] ->
  project_from_json env request (assemble d inst sch props) scope = Ok (Some p).
Proof.
  intros Hopts Horg Hproj Hlist Hprojects. unfold project_from_json.
  change ["install"; "options"; "project"] with (install_options ++ ["project"])%list.
  rewrite get_options. unfold getitem at 1. rewrite Hopts. simpl. rewrite Hproj. simpl.
  rewrite (organization_from_json_single env request d inst sch props opts _ o)
    by assumption.
  simpl. rewrite Hprojects. f_equal. apply find_single, str_eq_refl.
Qed.

(** ** The three steps of the wizard on an assembled payload *)

Ltac side_goal :=
  first [ assumption | apply lookup_insert_eq | reflexivity ].

Lemma requires_auth_authenticated {A : Type}
  (func : Request -> json -> A -> result (Response * json))
  (request : Request) (data : json) (args : A) :
  is_authenticated (user request) = true ->
  requires_auth func request data args = func request data args.
Proof. intros H. unfold requires_auth. now rewrite H. Qed.


Lemma on_project_change_single (env : Env) (request : Request)
  (d inst sch props opts : gmap string json) (is_test : bool)
  (p : Project) (k : ProjectKey) :
  is_authenticated (user request) = true ->
  inst !! "options" = Some (JDict opts) ->
  project_from_json env request (assemble d inst sch props) "project:write" = Ok (Some p) ->
  ProjectKey_filter env (Some p) = [k] ->
  on_project_change env request (assemble d inst sch props) is_test =
  install_response
    (assemble d (<["options" := JDict (<["dsn" := JStr (get_dsn_public k)]> opts)]> inst)
       sch (<["dsn" := dsn_schema [k]]> props)).
Proof.
  intros Hauth Hopts Hproject Hkeys. unfold on_project_change.
  rewrite requires_auth_authenticated by assumption.
  rewrite Hproject, bind_Ok, Hkeys, set_props, bind_Ok. simpl nonempty. cbv iota.
  rewrite (select_first_ok d inst sch _ opts "dsn" (dsn_schema [k])
             (JList [JStr (get_dsn_public k)]) (JStr (get_dsn_public k)));
    solve [side_goal].
Qed.

Lemma on_organization_change_single (env : Env) (request : Request)
  (d inst sch props opts : gmap string json) (is_test : bool)
  (o : Organization) (p : Project) (k : ProjectKey) :
  is_authenticated (user request) = true ->
  inst !! "options" = Some (JDict opts) ->
  opts !! "organization" = Some (JStr (text_type (organization_id o))) ->
  Organization_get_for_user env (user request) "project:write" = [o] ->
  Project_filter env (Some o)
    (Team_get_for_user env (Some o) (user request) "project:write") = [p] ->
  ProjectKey_filter env (Some p) = [k] ->
  on_organization_change env request (assemble d inst sch props) is_test =
  install_response
    (assemble d
       (<["options" :=
            JDict (<["dsn" := JStr (get_dsn_public k)]>
                     (<["project" := JStr (text_type (project_id p))]> opts))]> inst)
       sch
       (<["dsn" := dsn_schema [k]]> (<["project" := project_schema [p]]> props))).
Proof.
  intros Hauth Hopts Horg Hlist Hprojects Hkeys. unfold on_organization_change.
  rewrite requires_auth_authenticated by assumption.
  rewrite (organization_from_json_single env request d inst sch props opts _ o)
    by assumption.
  rewrite bind_Ok, Hprojects, set_props, bind_Ok. simpl nonempty. cbv iota.
  rewrite (select_first_ok d inst sch _ opts "project" (project_schema [p])
             (JList [JStr (text_type (project_id p))])
             (JStr (text_type (project_id p)))); try solve [side_goal].
  rewrite bind_Ok.
  rewrite (on_project_change_single env request _ _ _ _
             (<["project" := JStr (text_type (project_id p))]> opts) is_test p k);
    try solve [side_goal].
  - now rewrite insert_insert_eq.
  - apply (project_from_json_single env request _ _ _ _
             (<["project" := JStr (text_type (project_id p))]> opts) _ o p);
      try solve [side_goal].
    rewrite lookup_insert_ne by discriminate. assumption.
Qed.

Lemma on_account_change_single (env : Env) (request : Request)
  (d inst sch props opts : gmap string json) (is_test : bool)
  (o : Organization) (p : Project) (k : ProjectKey) :
  is_authenticated (user request) = true ->
  inst !! "options" = Some (JDict opts) ->
  Organization_get_for_user env (user request) "project:write" = [o] ->
  Project_filter env (Some o)
    (Team_get_for_user env (Some o) (user request) "project:write") = [p] ->
  ProjectKey_filter env (Some p) = [k] ->
  on_account_change env request (assemble d inst sch props) is_test =
  install_response
    (assemble d
       (<["options" :=
            JDict (<["dsn" := JStr (get_dsn_public k)]>
                     (<["project" := JStr (text_type (project_id p))]>
                        (<["organization" := JStr (text_type (organization_id o))]>
                           opts)))]> inst)
       sch
       (<["dsn" := dsn_schema [k]]>
          (<["project" := project_schema [p]]>
             (<["organization" := organization_schema [o]]> props)))).
Proof.
  intros Hauth Hopts Hlist Hprojects Hkeys. unfold on_account_change.
  rewrite requires_auth_authenticated by assumption.
  rewrite Hlist, set_props, bind_Ok. simpl nonempty. cbv iota.
  rewrite (select_first_ok d inst sch _ opts "organization" (organization_schema [o])
             (JList [JStr (text_type (organization_id o))])
             (JStr (text_type (organization_id o)))); try solve [side_goal].
  rewrite bind_Ok.
  rewrite (on_organization_change_single env request _ _ _ _
             (<["organization" := JStr (text_type (organization_id o))]> opts)
             is_test o p k); try solve [side_goal].
  now rewrite insert_insert_eq.
Qed.

(** With no organization in sight the first step stops after adding its
    fragment. *)
Lemma on_account_change_none (env : Env) (request : Request)
  (d inst sch props : gmap string json) (is_test : bool) :
  is_authenticated (user request) = true ->
  Organization_get_for_user env (user request) "project:write" = [] ->
  on_account_change env request (assemble d inst sch props) is_test =
  install_response
    (assemble d inst sch (<["organization" := organization_schema []]> props)).
Proof.
  intros Hauth Hlist. unfold on_account_change.
  rewrite requires_auth_authenticated by assumption.
  now rewrite Hlist, set_props, bind_Ok.
Qed.

(** ** [post] on a verified request *)

Lemma post_verified_request (env : Env) (request : Request) (f : Frame) :
  verified env request f ->
  post env request =
  match dispatch env (frame_request f) (frame_data f) (frame_event f)
                 (String.eqb (frame_variant f) "test") with
  | Ok (resp, data) =>
      {| response := Ok resp; request_after := frame_request f;
         data_after := Some data; log := frame_log f |}
  | Raise e =>
      {| response := Raise e; request_after := frame_request f;
         data_after := None; log := frame_log f |}
  end.
Proof.
  intros [Hchecks Hverify]. unfold post. rewrite Hchecks.
  unfold post_verified. now rewrite Hverify.
Qed.

Lemma install_response_assemble (d inst sch props : gmap string json) :
  install_response (assemble d inst sch props) =
  Ok (proceed_response
        (JDict (<["schema" := JDict (<["properties" := JDict props]> sch)]> inst)),
      assemble d inst sch props).
Proof. unfold install_response. now rewrite get_install. Qed.

Lemma options_of_assemble (d inst sch props opts : gmap string json) :
  getitem_path (assemble d inst sch props) install_options = Ok (JDict opts) ->
  inst !! "options" = Some (JDict opts).
Proof.
  rewrite <- (app_nil_r install_options), get_options. unfold getitem.
  destruct (inst !! "options"); simpl; congruence.
Qed.

(** The response [proceed_response] builds, field by field. *)
Lemma proceed_response_fields (install : json) :
  proceed_response install
  = {| response_data :=
         Some (JDict (<["install" := install]> (<["proceed" := JBool true]> ∅)));
       status_code := 200 |}.
Proof. reflexivity. Qed.

(** C1. A verified [option-change:account] request from an authenticated
    caller who sees exactly one organization, exactly one project in it and
    exactly one key on that project is answered, by this one call, with
    status 200, [proceed: true] and an [install] whose options are the
    incoming options plus the organization id, the project id and the DSN,
    and whose schema properties are the incoming ones plus the three
    fragments [organization], [project] and [dsn]. *)
Theorem account_change_cascades (env : Env) (request : Request) (f : Frame)
  (o : Organization) (p : Project) (k : ProjectKey)
  (opts props : gmap string json) :
  verified env request f ->
  frame_event f = JStr "option-change:account" ->
  is_authenticated (user (frame_request f)) = true ->
  getitem_path (frame_data f) install_options = Ok (JDict opts) ->
  getitem_path (frame_data f) schema_properties = Ok (JDict props) ->
  Organization_get_for_user env (user (frame_request f)) "project:write" = [o] ->
  Project_filter env (Some o)
    (Team_get_for_user env (Some o) (user (frame_request f)) "project:write") = [p] ->
  ProjectKey_filter env (Some p) = [k] ->
  exists install,
    response (post env request)
    = Ok {| response_data :=
              Some (JDict (<["install" := install]> (<["proceed" := JBool true]> ∅)));
            status_code := 200 |}
    /\ getitem install "options" =
       Ok (JDict (<["dsn" := JStr (get_dsn_public k)]>
                    (<["project" := JStr (text_type (project_id p))]>
                       (<["organization" := JStr (text_type (organization_id o))]>
                          opts))))
    /\ getitem_path install ["schema"; "properties"] =
       Ok (JDict (<["dsn" := dsn_schema [k]]>
                    (<["project" := project_schema [p]]>
                       (<["organization" := organization_schema [o]]> props)))).
Proof.
  intros Hverified Hevent Hauth Hopts Hprops Horgs Hprojects Hkeys.
  rewrite (post_verified_request env request f Hverified).
  unfold dispatch. rewrite Hevent. simpl str_eq. cbv iota.
  destruct (decompose_schema _ _ Hprops) as (d & inst & sch & Hdata & _).
  rewrite Hdata in *. apply options_of_assemble in Hopts.
  rewrite (on_account_change_single env _ d inst sch props opts _ o p k)
    by assumption.
  rewrite install_response_assemble. simpl response.
  rewrite proceed_response_fields.
  eexists. split; [reflexivity|]. split.
  - unfold getitem. rewrite lookup_insert_ne by discriminate.
    now rewrite lookup_insert_eq.
  - simpl. rewrite lookup_insert_eq. simpl. now rewrite lookup_insert_eq.
Qed.

Lemma account_change_cascades_witness :
  exists install,
    response (post Fixture.env
                (Fixture.test_request
                   (Fixture.event_payload "local" "option-change:account")
                   (AuthenticatedUser 7)))
    = Ok {| response_data :=
              Some (JDict (<["install" := install]> (<["proceed" := JBool true]> ∅)));
            status_code := 200 |}
    /\ getitem install "options" =
       Ok (JDict (<["dsn" := JStr "https://abc123@sentry.io/2"]>
                    (<["project" := JStr (text_type 2)]>
                       (<["organization" := JStr (text_type 1)]> ∅))))
    /\ getitem_path install ["schema"; "properties"] =
       Ok (JDict (<["dsn" := dsn_schema [Fixture.web_key]]>
                    (<["project" := project_schema [Fixture.web]]>
                       (<["organization" := organization_schema [Fixture.acme]]> ∅)))).
Proof.
  eapply (account_change_cascades Fixture.env _ _
            Fixture.acme Fixture.web Fixture.web_key ∅ ∅).
  - split; [vm_compute; reflexivity|]. vm_compute; reflexivity.
  - reflexivity.
  - reflexivity.
  - reflexivity.
  - reflexivity.
  - reflexivity.
  - reflexivity.
  - reflexivity.
Defined.

(** What holds of the frame when [post] reaches the signature check. *)
Lemma post_checks_verifying (env : Env) (request : Request) (f : Frame) :
  post_checks env request = Verifying f ->
  json_loads env (body request) = Some (frame_data f)
  /\ secondary_auth env request (frame_data f) (initial_logging_data request)
     = Ok (frame_request f, frame_logging_data f)
  /\ dict_get (frame_data f) "event" JNull = Ok (frame_event f)
  /\ header_value (HTTP_X_SIGNATURE_HMAC_SHA256_HEX request) = Some (frame_signature f)
  /\ header_value (HTTP_X_SIGNATURE_KEY_VARIANT request) = Some (frame_variant f)
  /\ select_key env (frame_variant f) = Some (frame_key f)
  /\ exists app_id,
       app_id_of (frame_data f) = Ok app_id
       /\ not_local_app app_id && String.eqb (frame_variant f) "test" = false.
Proof.
  unfold post_checks.
  destruct (json_loads env (body request)) as [data|]; [|discriminate].
  destruct (secondary_auth env request data _) as [[request' logging_data]|] eqn:Hauth;
    [|discriminate].
  destruct (dict_get data "event" JNull) as [event|] eqn:Hevent; [|discriminate].
  destruct (format_event event) as [message|]; [|discriminate].
  destruct (header_value (HTTP_X_SIGNATURE_HMAC_SHA256_HEX request)) as [signature|];
    [|discriminate].
  destruct (header_value (HTTP_X_SIGNATURE_KEY_VARIANT request)) as [variant|];
    [|discriminate].
  destruct (select_key env variant) as [key|] eqn:Hkey; [|discriminate].
  destruct (app_id_of data) as [app_id|] eqn:Happ; [|discriminate].
  destruct (not_local_app app_id && String.eqb variant "test") eqn:Hgate;
    [discriminate|].
  intros [= <-]. simpl. repeat split; try assumption. now exists app_id.
Qed.

(** A formatted event is the message of that event. *)
Lemma format_event_Ok (event : json) (message : LogMessage) :
  format_event event = Ok message ->
  message = EventMessage event /\ formattable event = true.
Proof.
  unfold format_event. destruct (formattable event); [|discriminate].
  intros [= <-]. auto.
Qed.

Lemma format_event_formattable (event : json) :
  formattable event = true -> format_event event = Ok (EventMessage event).
Proof. unfold format_event. now intros ->. Qed.

(** The event of a request that reaches the signature check was formatted
    and logged, once, on line 193. *)
Lemma post_checks_verifying_log (env : Env) (request : Request) (f : Frame) :
  post_checks env request = Verifying f ->
  formattable (frame_event f) = true
  /\ frame_log f
     = [log_record INFO (EventMessage (frame_event f)) (frame_logging_data f)].
Proof.
  unfold post_checks.
  destruct (json_loads env (body request)) as [data|]; [|discriminate].
  destruct (secondary_auth env request data _) as [[request' logging_data]|];
    [|discriminate].
  destruct (dict_get data "event" JNull) as [event|]; [|discriminate].
  destruct (format_event event) as [message|] eqn:Hformat; [|discriminate].
  apply format_event_Ok in Hformat as [-> Hformat].
  destruct (header_value (HTTP_X_SIGNATURE_HMAC_SHA256_HEX request)) as [signature|];
    [|discriminate].
  destruct (header_value (HTTP_X_SIGNATURE_KEY_VARIANT request)) as [variant|];
    [|discriminate].
  destruct (select_key env variant) as [key|]; [|discriminate].
  destruct (app_id_of data) as [app_id|]; [|discriminate].
  destruct (not_local_app app_id && String.eqb variant "test"); [discriminate|].
  intros [= <-]. simpl. auto.
Qed.

(** C8. A verified [option-change:account] request from an authenticated
    caller who sees no organization is answered with status 200 and
    [proceed: true]; the schema properties of the returned [install] are the
    incoming ones plus an [organization] fragment whose [enum] is empty, and
    its [options] entry is exactly the incoming one. *)
Theorem account_change_without_organization (env : Env) (request : Request)
  (f : Frame) (props : gmap string json) :
  verified env request f ->
  frame_event f = JStr "option-change:account" ->
  is_authenticated (user (frame_request f)) = true ->
  getitem_path (frame_data f) schema_properties = Ok (JDict props) ->
  Organization_get_for_user env (user (frame_request f)) "project:write" = [] ->
  exists install,
    response (post env request)
    = Ok {| response_data :=
              Some (JDict (<["install" := install]> (<["proceed" := JBool true]> ∅)));
            status_code := 200 |}
    /\ getitem_path install ["schema"; "properties"] =
       Ok (JDict (<["organization" := organization_schema []]> props))
    /\ getitem_path install ["schema"; "properties"; "organization"; "enum"] =
       Ok (JList [])
    /\ getitem install "options" = getitem_path (frame_data f) install_options.
Proof.
  intros Hverified Hevent Hauth Hprops Horgs.
  rewrite (post_verified_request env request f Hverified).
  unfold dispatch. rewrite Hevent. simpl str_eq. cbv iota.
  destruct (decompose_schema _ _ Hprops) as (d & inst & sch & Hdata & _).
  rewrite Hdata in *.
  rewrite (on_account_change_none env _ d inst sch props) by assumption.
  rewrite install_response_assemble. simpl response.
  rewrite proceed_response_fields.
  eexists. split; [reflexivity|]. split; [|split].
  - simpl. rewrite lookup_insert_eq. simpl. now rewrite lookup_insert_eq.
  - simpl. rewrite lookup_insert_eq. simpl. rewrite lookup_insert_eq. simpl.
    now rewrite lookup_insert_eq.
  - rewrite <- (app_nil_r install_options), get_options.
    unfold getitem. rewrite lookup_insert_ne by discriminate.
    now destruct (inst !! "options").
Qed.

Lemma account_change_without_organization_witness :
  exists install,
    response (post Fixture.env
                (Fixture.test_request
                   (Fixture.event_payload "local" "option-change:account")
                   (AuthenticatedUser 8)))
    = Ok {| response_data :=
              Some (JDict (<["install" := install]> (<["proceed" := JBool true]> ∅)));
            status_code := 200 |}
    /\ getitem_path install ["schema"; "properties"] =
       Ok (JDict (<["organization" := organization_schema []]> ∅))
    /\ getitem_path install ["schema"; "properties"; "organization"; "enum"] =
       Ok (JList [])
    /\ getitem install "options" =
       getitem_path (Fixture.value (Fixture.event_payload "local" "option-change:account"))
         install_options.
Proof.
  eapply (account_change_without_organization Fixture.env _
            {| frame_request := _; frame_data := _; frame_event := _;
               frame_signature := _; frame_variant := _; frame_key := _;
               frame_logging_data := _; frame_log := _ |} ∅).
  - split; [vm_compute; reflexivity|]. vm_compute; reflexivity.
  - reflexivity.
  - reflexivity.
  - reflexivity.
  - reflexivity.
Defined.



(** ** Signatures *)

(** C2. [verify] does not return for every payload: on a payload with a
    byte above 0x7F, [payload.encode('utf-8')] raises [UnicodeDecodeError]
    before anything is compared, whatever the key and the signature, the
    payload's own HMAC-SHA256 included. *)
Theorem verify_raises_on_non_ascii_payload (payload key signature : string) :
  is_ascii payload = false ->
  verify payload key signature = Raise UnicodeDecodeError.
Proof.
  intros Hpayload. unfold verify.
  now rewrite expected_signature_not_ascii.
Qed.

Lemma verify_raises_on_non_ascii_payload_witness :
  verify (Fixture.text (Fixture.event_payload Fixture.cafe "preview"))
    "production-secret"
    (hmac_sha256_hex (Fixture.text (Fixture.event_payload Fixture.cafe "preview"))
       "production-secret")
  = Raise UnicodeDecodeError.
Proof.
  apply verify_raises_on_non_ascii_payload. reflexivity.
Defined.

(** C10. The control flow of [verify] does not depend on where a supplied
    signature first differs from the digest: two signatures of the same
    length give the same observations, whatever their contents, and the
    observed run returns what [verify] returns. *)
Theorem verify_observations_independent_of_mismatch
  (payload key signature1 signature2 : string) :
  String.length signature1 = String.length signature2 ->
  snd (verify_run payload key signature1) = snd (verify_run payload key signature2)
  /\ fst (verify_run payload key signature1) = verify payload key signature1
  /\ fst (verify_run payload key signature2) = verify payload key signature2.
Proof.
  intros Hlen. unfold verify_run, verify.
  destruct (expected_signature payload key) as [expected|e]; [|auto].
  pose proof (constant_time_compare_run_trace signature1 expected) as Htrace1.
  pose proof (constant_time_compare_run_trace signature2 expected) as Htrace2.
  pose proof (constant_time_compare_run_result signature1 expected) as Hresult1.
  pose proof (constant_time_compare_run_result signature2 expected) as Hresult2.
  destruct (constant_time_compare_run signature1 expected) as [outcome1 trace1].
  destruct (constant_time_compare_run signature2 expected) as [outcome2 trace2].
  simpl in *. subst. rewrite Hlen. auto.
Qed.

Lemma verify_observations_independent_of_mismatch_witness :
  snd (verify_run "The quick brown fox jumps over the lazy dog" "key"
         "07bc83f430538424b13298e6aa6fb143ef4d59a14946175997479dbc2d1a3cd8")
  = snd (verify_run "The quick brown fox jumps over the lazy dog" "key"
           "f7bc83f430538424b13298e6aa6fb143ef4d59a14946175997479dbc2d1a3cd0")
  /\ fst (verify_run "The quick brown fox jumps over the lazy dog" "key"
            "07bc83f430538424b13298e6aa6fb143ef4d59a14946175997479dbc2d1a3cd8")
     = verify "The quick brown fox jumps over the lazy dog" "key"
         "07bc83f430538424b13298e6aa6fb143ef4d59a14946175997479dbc2d1a3cd8"
  /\ fst (verify_run "The quick brown fox jumps over the lazy dog" "key"
            "f7bc83f430538424b13298e6aa6fb143ef4d59a14946175997479dbc2d1a3cd0")
     = verify "The quick brown fox jumps over the lazy dog" "key"
         "f7bc83f430538424b13298e6aa6fb143ef4d59a14946175997479dbc2d1a3cd0".
Proof.
  apply verify_observations_independent_of_mismatch. reflexivity.
Defined.

(** ** Lookups that find nothing *)

Lemma find_none_str_eq {A : Type} (name : A -> string) (v : json) (l : list A) :
  (forall x, In x l -> JStr (name x) <> v) ->
  List.find (fun x => str_eq (name x) v) l = None.
Proof.
  intros Hnot. induction l as [|x l IH]; [reflexivity|]. simpl.
  destruct (str_eq (name x) v) eqn:E.
  - exfalso. apply (Hnot x); [now left|].
    destruct v; simpl in E; try discriminate.
    apply String.eqb_eq in E. now subst.
  - apply IH. intros y Hy. apply Hnot. now right.
Qed.

(** With no organization, the project filter selects nothing. *)
Lemma Project_filter_None (env : Env) (teams : list Team) :
  Project_filter env None teams = [].
Proof.
  unfold Project_filter. induction (Project_objects env) as [|p l IH];
    [reflexivity|]. simpl. exact IH.
Qed.

(** When the path to [install.options.<name>] exists, the path to any other
    option raises at most [KeyError]. *)
Lemma sibling_option (data v : json) (name other : string) :
  getitem_path data ["install"; "options"; name] = Ok v ->
  getitem_path data ["install"; "options"; other] = Raise KeyError
  \/ exists w, getitem_path data ["install"; "options"; other] = Ok w.
Proof.
  simpl. intros H.
  destruct (getitem data "install") as [i|] eqn:E1; [|discriminate]. simpl in *.
  destruct (getitem i "options") as [o|] eqn:E2; [|discriminate]. simpl in *.
  destruct (getitem o name) as [x|] eqn:E3; [|discriminate].
  apply getitem_dict in E3 as (opts & -> & _). unfold getitem.
  destruct (opts !! other); simpl; eauto.
Qed.

Lemma organization_from_json_total (env : Env) (request : Request)
  (data v : json) (name scope : string) :
  getitem_path data ["install"; "options"; name] = Ok v ->
  exists org, organization_from_json env request data scope = Ok org.
Proof.
  intros H. unfold organization_from_json.
  destruct (sibling_option data v name "organization" H) as [-> | [w ->]]; eauto.
Qed.

(** C5. When [install.options.organization] is a value that is the id of no
    organization the caller sees, [organization_from_json] returns [None]
    without raising; when [install.options.project] is a value that is the
    id of no project the caller sees, [project_from_json] returns [None]
    without raising; and whenever [organization_from_json] returns [None],
    so does [project_from_json]. *)
Theorem lookups_not_found (env : Env) (request : Request) (data : json)
  (scope : string) :
  (forall v,
     getitem_path data ["install"; "options"; "organization"] = Ok v ->
     (forall o, In o (Organization_get_for_user env (user request) scope) ->
                JStr (text_type (organization_id o)) <> v) ->
     organization_from_json env request data scope = Ok None)
  /\ (forall v,
        getitem_path data ["install"; "options"; "project"] = Ok v ->
        (forall p, In p (visible_projects env request data) ->
                   JStr (text_type (project_id p)) <> v) ->
        project_from_json env request data scope = Ok None)
  /\ (organization_from_json env request data "project:write" = Ok None ->
      project_from_json env request data scope = Ok None).
Proof.
  split; [|split].
  - intros v Hpath Hnot. unfold organization_from_json. rewrite Hpath.
    f_equal. now apply find_none_str_eq.
  - intros v Hpath Hnot. unfold project_from_json. rewrite Hpath.
    unfold visible_projects in Hnot.
    destruct (organization_from_json_total env request data v "project"
                "project:write" Hpath) as [org Horg].
    rewrite Horg in *. rewrite bind_Ok. f_equal. now apply find_none_str_eq.
  - intros Horg. unfold project_from_json.
    destruct (getitem_path data ["install"; "options"; "project"]) as [v|e] eqn:Hpath.
    + rewrite Horg, bind_Ok, Project_filter_None. reflexivity.
    + assert (e = KeyError) as ->; [|reflexivity].
      unfold organization_from_json in Horg. simpl in Hpath, Horg.
      destruct (getitem data "install") as [i|e1] eqn:E1; simpl in *.
      * destruct (getitem i "options") as [o|e2] eqn:E2; simpl in *.
        -- destruct o; simpl in *; try discriminate.
           destruct (d !! "project"); simpl in *; congruence.
        -- destruct e2; try discriminate. congruence.
      * destruct e1; try discriminate. congruence.
Qed.

Lemma lookups_not_found_witness :
  organization_from_json Fixture.env Fixture.member_request
    (Fixture.options_payload "999" "2") "project:write" = Ok None
  /\ project_from_json Fixture.env Fixture.member_request
       (Fixture.options_payload "1" "5") "project:write" = Ok None
  /\ project_from_json Fixture.env Fixture.member_request
       (Fixture.options_payload "999" "2") "project:write" = Ok None.
Proof.
  destruct (lookups_not_found Fixture.env Fixture.member_request
              (Fixture.options_payload "999" "2") "project:write") as (Horg & _ & Hshort).
  destruct (lookups_not_found Fixture.env Fixture.member_request
              (Fixture.options_payload "1" "5") "project:write") as (_ & Hproj & _).
  split; [|split].
  - apply (Horg (JStr "999")); [reflexivity|].
    intros o [<- | []]. vm_compute. discriminate.
  - apply (Hproj (JStr "5")); [reflexivity|].
    intros p [<- | []]. vm_compute. discriminate.
  - apply Hshort. apply (Horg (JStr "999")); [reflexivity|].
    intros o [<- | []]. vm_compute. discriminate.
Defined.

(** ** The secondary authentication *)

(** Case analysis on the innermost scrutinee of the goal. *)
Ltac case_split :=
  repeat match goal with
         | |- context [match ?x with _ => _ end] =>
             lazymatch x with
             | context [match _ with _ => _ end] => fail
             | _ => destruct x eqn:?; simpl
             end
         end.

(** A payload on which a subscript succeeds or raises [KeyError] is a
    dict, so [data.get] does not raise on it. *)
Lemma getitem_path_dict (data : json) (k : string) (path : list string) (v : json) :
  getitem_path data (k :: path) = Ok v -> exists d, data = JDict d.
Proof.
  simpl. destruct data; simpl; try discriminate. eauto.
Qed.

Lemma getitem_path_KeyError_dict (data : json) (path : list string) :
  getitem_path data path = Raise KeyError -> exists d, data = JDict d.
Proof.
  destruct path as [|k path]; [discriminate|].
  simpl. destruct data; simpl; try discriminate. eauto.
Qed.

(** C9. When the caller starts unauthenticated and the parsed body carries
    a token that resolves, the request object [post] leaves behind has the
    token's user as its [user] and the token as its [auth], whatever the
    outcome, hence on each of the 400 paths that follow the parsing. The
    adoption precedes the checks: whenever [post] returns a response, the
    400 included, and whenever the event can be formatted, the event record
    of line 193 opens the log with the id of the token's user, and every
    record logged carries that id. *)
Theorem embedded_token_adopted_before_checks (env : Env) (request : Request)
  (data : json) (token : ApiToken) :
  json_loads env (body request) = Some data ->
  is_authenticated (user request) = false ->
  authenticate_from_json_token env data = Ok (Some token) ->
  request_after (post env request)
  = {| HTTP_X_SIGNATURE_HMAC_SHA256_HEX := HTTP_X_SIGNATURE_HMAC_SHA256_HEX request;
       HTTP_X_SIGNATURE_KEY_VARIANT := HTTP_X_SIGNATURE_KEY_VARIANT request;
       body := body request;
       user := AuthenticatedUser (token_user_id token);
       auth := Some token |}
  /\ is_authenticated (user (request_after (post env request))) = true
  /\ (exists event,
        dict_get data "event" JNull = Ok event
        /\ ((formattable event = true
             \/ exists resp, response (post env request) = Ok resp) ->
            exists rest,
              log (post env request) =
              log_record INFO (EventMessage event)
                {| log_user_id := Some (token_user_id token);
                   log_signature := HTTP_X_SIGNATURE_HMAC_SHA256_HEX request;
                   log_variant := HTTP_X_SIGNATURE_KEY_VARIANT request |} :: rest))
  /\ Forall (fun r => log_user_id (log_extra r) = Some (token_user_id token))
            (log (post env request)).
Proof.
  intros Hjson Hanon Htoken.
  assert (exists d, data = JDict d) as [d ->].
  { unfold authenticate_from_json_token in Htoken.
    destruct (getitem_path data _) as [tok|e] eqn:Hpath.
    - now apply getitem_path_dict in Hpath.
    - destruct e; discriminate. }
  unfold post, post_checks. rewrite Hjson.
  unfold secondary_auth. rewrite Hanon. simpl negb. cbv iota.
  rewrite Htoken, bind_Ok. cbv iota beta.
  unfold dict_get, format_event, reject, escape, post_verified.
  destruct (formattable (default JNull (d !! "event"))) eqn:Hformat.
  - case_split; repeat split; eauto; repeat constructor.
  - repeat split; eauto.
    eexists. split; [reflexivity|].
    intros [H | [resp H]]; [congruence | discriminate H].
Qed.

Lemma embedded_token_adopted_before_checks_witness :
  request_after (post Fixture.env Fixture.unsigned_token_request)
  = {| HTTP_X_SIGNATURE_HMAC_SHA256_HEX := None;
       HTTP_X_SIGNATURE_KEY_VARIANT := Some "test";
       body := body Fixture.unsigned_token_request;
       user := AuthenticatedUser 7;
       auth := Some Fixture.member_token |}
  /\ is_authenticated
       (user (request_after (post Fixture.env Fixture.unsigned_token_request))) = true
  /\ (exists event,
        dict_get
          (Fixture.value
             (Fixture.token_event_payload "valid-token" "option-change:account"))
          "event" JNull = Ok event
        /\ ((formattable event = true
             \/ exists resp,
                  response (post Fixture.env Fixture.unsigned_token_request) = Ok resp) ->
            exists rest,
              log (post Fixture.env Fixture.unsigned_token_request) =
              log_record INFO (EventMessage event)
                {| log_user_id := Some 7;
                   log_signature := None;
                   log_variant := Some "test" |} :: rest))
  /\ Forall (fun r => log_user_id (log_extra r) = Some 7)
            (log (post Fixture.env Fixture.unsigned_token_request)).
Proof.
  apply (embedded_token_adopted_before_checks Fixture.env
           Fixture.unsigned_token_request
           (Fixture.value
              (Fixture.token_event_payload "valid-token" "option-change:account"))
           Fixture.member_token).
  - vm_compute. reflexivity.
  - reflexivity.
  - vm_compute. reflexivity.
Defined.

(** C4, as stated, fails: an anonymous request whose embedded token does
    not resolve is not carried on; [AuthenticationFailed] escapes [post]
    before anything is logged. *)
Lemma unresolvable_token_escapes :
  let request :=
    Fixture.test_request
      (Fixture.token_event_payload "expired-token" "option-change:account")
      AnonymousUser in
  is_authenticated (user request) = false
  /\ (exists data token,
        json_loads Fixture.env (body request) = Some data
        /\ getitem_path data ["authentications"; "account"; "token"; "token"]
           = Ok token
        /\ authenticate_credentials Fixture.env token = None)
  /\ response (post Fixture.env request) = Raise AuthenticationFailed
  /\ log (post Fixture.env request) = [].
Proof.
  split; [reflexivity|]. split; [|split].
  - eexists _, (JStr "expired-token").
    split; [vm_compute; reflexivity|]. split; vm_compute; reflexivity.
  - vm_compute. reflexivity.
  - vm_compute. reflexivity.
Qed.

Lemma initial_logging_data_anonymous (request : Request) :
  is_authenticated (user request) = false ->
  initial_logging_data request =
  {| log_user_id := None;
     log_signature := HTTP_X_SIGNATURE_HMAC_SHA256_HEX request;
     log_variant := HTTP_X_SIGNATURE_KEY_VARIANT request |}.
Proof. intros H. unfold initial_logging_data. now rewrite H. Qed.

(** C4, amended. For an unauthenticated caller: when a key on the path
    [authentications.account.token.token] is missing from its object, the
    secondary authentication returns with the request unchanged, and [post]
    goes on: it leaves the request unchanged and, for an event that can be
    formatted, logs it for an anonymous caller; when the field is there and
    its resolution fails, [AuthenticationFailed] escapes [post] with the
    request unchanged and nothing logged. *)
Theorem embedded_token_absent_or_unresolvable (env : Env) (request : Request)
  (data : json) :
  json_loads env (body request) = Some data ->
  is_authenticated (user request) = false ->
  (getitem_path data ["authentications"; "account"; "token"; "token"]
   = Raise KeyError ->
   secondary_auth env request data (initial_logging_data request)
   = Ok (request, initial_logging_data request)
   /\ request_after (post env request) = request
   /\ exists event,
        dict_get data "event" JNull = Ok event
        /\ (formattable event = true ->
            exists rest,
              log (post env request) =
              log_record INFO (EventMessage event)
                {| log_user_id := None;
                   log_signature := HTTP_X_SIGNATURE_HMAC_SHA256_HEX request;
                   log_variant := HTTP_X_SIGNATURE_KEY_VARIANT request |} :: rest))
  /\ (forall token,
        getitem_path data ["authentications"; "account"; "token"; "token"]
        = Ok token ->
        authenticate_credentials env token = None ->
        response (post env request) = Raise AuthenticationFailed
        /\ request_after (post env request) = request
        /\ log (post env request) = []).
Proof.
  intros Hjson Hanon. split.
  - intros Hpath.
    destruct (getitem_path_KeyError_dict _ _ Hpath) as [d ->].
    assert (secondary_auth env request (JDict d) (initial_logging_data request)
            = Ok (request, initial_logging_data request)) as Hauth.
    { unfold secondary_auth, authenticate_from_json_token.
      now rewrite Hanon, Hpath. }
    split; [exact Hauth|].
    unfold post, post_checks. rewrite Hjson, Hauth.
    rewrite (initial_logging_data_anonymous request Hanon).
    unfold dict_get, format_event, reject, escape, post_verified.
    destruct (formattable (default JNull (d !! "event"))) eqn:Hformat.
    + case_split; split; eauto.
    + split; [reflexivity|]. eexists. split; [reflexivity|]. intros H. congruence.
  - intros token Hpath Hfail.
    unfold post, post_checks. rewrite Hjson.
    unfold secondary_auth, authenticate_from_json_token.
    rewrite Hanon, Hpath, Hfail. simpl. auto.
Qed.

Lemma embedded_token_absent_or_unresolvable_witness :
  (exists rest,
     log (post Fixture.env
            (Fixture.test_request
               (Fixture.event_payload "local" "option-change:account") AnonymousUser))
     = log_record INFO (EventMessage (JStr "option-change:account"))
         {| log_user_id := None;
            log_signature :=
              Some (hmac_sha256_hex
                      (Fixture.text (Fixture.event_payload "local" "option-change:account"))
                      "test-key");
            log_variant := Some "test" |} :: rest)
  /\ response (post Fixture.env
                 (Fixture.test_request
                    (Fixture.token_event_payload "expired-token" "option-change:account")
                    AnonymousUser)) = Raise AuthenticationFailed.
Proof.
  split.
  - destruct (embedded_token_absent_or_unresolvable Fixture.env
                (Fixture.test_request
                   (Fixture.event_payload "local" "option-change:account") AnonymousUser)
                (Fixture.value (Fixture.event_payload "local" "option-change:account")))
      as [Habsent _].
    + vm_compute. reflexivity.
    + reflexivity.
    + destruct Habsent as (_ & _ & event & Hevent & Hlog).
      * vm_compute. reflexivity.
      * injection Hevent as <-. apply Hlog. reflexivity.
  - apply (embedded_token_absent_or_unresolvable Fixture.env
             (Fixture.test_request
                (Fixture.token_event_payload "expired-token" "option-change:account")
                AnonymousUser)
             (Fixture.value
                (Fixture.token_event_payload "expired-token" "option-change:account")))
      with (token := JStr "expired-token").
    + vm_compute. reflexivity.
    + reflexivity.
    + vm_compute. reflexivity.
    + vm_compute. reflexivity.
Defined.

(** ** The header checks and the event *)

(** C6, as stated, fails: a signed request whose payload has no [event]
    member passes every check and is answered by the default echo. *)
Lemma eventless_request_is_echoed :
  let request := Fixture.test_request Fixture.eventless_payload AnonymousUser in
  (exists data,
     json_loads Fixture.env (body request) = Some data
     /\ getitem data "event" = Raise KeyError
     /\ exists f, verified Fixture.env request f /\ frame_event f = JNull)
  /\ response (post Fixture.env request)
     = Ok (proceed_response (Fixture.value Fixture.empty_install)).
Proof.
  split.
  - eexists. split; [vm_compute; reflexivity|]. split; [vm_compute; reflexivity|].
    eexists. split; [split|].
    + vm_compute. reflexivity.
    + vm_compute. reflexivity.
    + reflexivity.
  - vm_compute. reflexivity.
Qed.

(** C6, amended. [post] requires a non-empty signature header and a
    non-empty variant header: a request whose body parses to an object,
    whose secondary authentication returns and whose event can be
    formatted is answered 400 when either header is missing or empty. It
    does not require an event: a verified request whose event is missing,
    null or empty and whose payload has an [install] member is answered by
    the default echo, status 200 with that [install] and [proceed: true],
    the payload left as parsed. *)
Theorem event_is_not_required (env : Env) (request : Request) :
  (forall data request' logging_data event,
     json_loads env (body request) = Some data ->
     secondary_auth env request data (initial_logging_data request)
     = Ok (request', logging_data) ->
     dict_get data "event" JNull = Ok event ->
     formattable event = true ->
     header_value (HTTP_X_SIGNATURE_HMAC_SHA256_HEX request) = None
     \/ header_value (HTTP_X_SIGNATURE_KEY_VARIANT request) = None ->
     response (post env request) = Ok bad_request)
  /\ (forall f install,
        verified env request f ->
        frame_event f = JNull \/ frame_event f = JStr "" ->
        getitem (frame_data f) "install" = Ok install ->
        response (post env request)
        = Ok {| response_data :=
                  Some (JDict (<["install" := install]>
                                 (<["proceed" := JBool true]> ∅)));
                status_code := 200 |}
        /\ data_after (post env request) = json_loads env (body request)).
Proof.
  split.
  - intros data request' logging_data event Hjson Hauth Hevent Hformat Hmissing.
    unfold post, post_checks.
    rewrite Hjson, Hauth, Hevent, (format_event_formattable _ Hformat).
    destruct Hmissing as [-> | Hvariant]; [reflexivity|].
    rewrite Hvariant.
    now destruct (header_value (HTTP_X_SIGNATURE_HMAC_SHA256_HEX request)).
  - intros f install Hverified Hevent Hinstall.
    rewrite (post_verified_request env request f Hverified).
    destruct Hverified as [Hchecks _].
    apply post_checks_verifying in Hchecks as (-> & _).
    unfold dispatch, install_response.
    destruct Hevent as [-> | ->]; simpl str_eq; cbv iota;
      rewrite Hinstall; split; reflexivity.
Qed.

Lemma event_is_not_required_witness :
  response (post Fixture.env
              (Fixture.unsigned_request Fixture.eventless_payload AnonymousUser))
  = Ok bad_request
  /\ response (post Fixture.env
                 (Fixture.test_request (Fixture.event_payload "local" "") AnonymousUser))
     = Ok {| response_data :=
               Some (JDict (<["install" := Fixture.value Fixture.empty_install]>
                              (<["proceed" := JBool true]> ∅)));
             status_code := 200 |}
  /\ data_after (post Fixture.env
                   (Fixture.test_request (Fixture.event_payload "local" "") AnonymousUser))
     = json_loads Fixture.env
         (body (Fixture.test_request (Fixture.event_payload "local" "") AnonymousUser)).
Proof.
  split.
  - apply (event_is_not_required Fixture.env
             (Fixture.unsigned_request Fixture.eventless_payload AnonymousUser))
      with (data := Fixture.value Fixture.eventless_payload)
           (request' := Fixture.unsigned_request Fixture.eventless_payload AnonymousUser)
           (logging_data :=
              initial_logging_data
                (Fixture.unsigned_request Fixture.eventless_payload AnonymousUser))
           (event := JNull).
    + vm_compute. reflexivity.
    + vm_compute. reflexivity.
    + vm_compute. reflexivity.
    + reflexivity.
    + left. reflexivity.
  - eapply (event_is_not_required Fixture.env
              (Fixture.test_request (Fixture.event_payload "local" "") AnonymousUser))
      with (f := {| frame_request := _; frame_data := _; frame_event := _;
                    frame_signature := _; frame_variant := _; frame_key := _;
                    frame_logging_data := _; frame_log := _ |}).
    + split; [vm_compute; reflexivity|]. vm_compute; reflexivity.
    + right. reflexivity.
    + vm_compute. reflexivity.
Defined.

(** ** The test variant *)

Lemma not_local_app_false (app_id : json) :
  not_local_app app_id = false <-> app_id = JStr "" \/ app_id = JStr "local".
Proof.
  unfold not_local_app, str_eq. rewrite negb_false_iff, orb_true_iff. split.
  - intros [H | H]; destruct app_id; try discriminate;
      apply String.eqb_eq in H; subst; auto.
  - intros [-> | ->]; auto.
Qed.



(** * Further properties of the endpoint *)

(** ** The steps on a payload with options and schema properties *)

Lemma payload_of_paths (data : json) (opts props : gmap string json) :
  getitem_path data install_options = Ok (JDict opts) ->
  getitem_path data schema_properties = Ok (JDict props) ->
  exists d inst sch, data = payload d inst sch opts props.
Proof.
  intros Hopts Hprops.
  destruct (decompose_schema _ _ Hprops) as (d & inst & sch & -> & _).
  apply options_of_assemble in Hopts.
  exists d, inst, sch. unfold payload. now rewrite insert_id.
Qed.

Lemma payload_get_options (d inst sch opts props : gmap string json) (q : list string) :
  getitem_path (payload d inst sch opts props) (install_options ++ q) =
  getitem_path (JDict opts) q.
Proof.
  unfold payload. rewrite get_options. unfold getitem at 1.
  now rewrite lookup_insert_eq.
Qed.

Lemma payload_set_options (d inst sch opts props : gmap string json)
  (k : string) (v : json) :
  setitem_path (payload d inst sch opts props) install_options k v =
  Ok (payload d inst sch (<[k := v]> opts) props).
Proof.
  unfold payload. rewrite (set_options _ _ _ _ opts) by apply lookup_insert_eq.
  now rewrite insert_insert_eq.
Qed.

Lemma payload_set_props (d inst sch opts props : gmap string json)
  (k : string) (v : json) :
  setitem_path (payload d inst sch opts props) schema_properties k v =
  Ok (payload d inst sch opts (<[k := v]> props)).
Proof. unfold payload. apply set_props. Qed.

Lemma payload_install_response (d inst sch opts props : gmap string json) :
  install_response (payload d inst sch opts props) =
  Ok (proceed_response
        (JDict (<["schema" := JDict (<["properties" := JDict props]> sch)]>
                  (<["options" := JDict opts]> inst))),
      payload d inst sch opts props).
Proof. unfold payload. apply install_response_assemble. Qed.

(** [select_first] after the fragment [frag] with enumeration [enum] has
    been stored under [name]. *)
Lemma payload_select_first (d inst sch opts props : gmap string json)
  (name : string) (frag : json) (enum : list json) :
  props !! name = Some frag ->
  getitem frag "enum" = Ok (JList enum) ->
  enum <> [] ->
  select_first (payload d inst sch opts props) name =
  Ok (payload d inst sch (pick name enum opts) props).
Proof.
  intros Hfrag Henum Hne. destruct enum as [|v enum]; [contradiction|].
  unfold payload at 1.
  rewrite (select_first_ok d _ sch props opts name frag (JList (v :: enum)) v);
    [| apply lookup_insert_eq | assumption | assumption | reflexivity].
  unfold payload, pick. now rewrite insert_insert_eq.
Qed.

Lemma organization_from_json_payload (env : Env) (request : Request)
  (d inst sch opts props : gmap string json) (scope : string) :
  organization_from_json env request (payload d inst sch opts props) scope =
  Ok (selected_organization env (user request) scope opts).
Proof.
  unfold organization_from_json, selected_organization.
  change ["install"; "options"; "organization"]
    with (install_options ++ ["organization"])%list.
  rewrite payload_get_options. simpl.
  now destruct (opts !! "organization").
Qed.

Lemma project_from_json_payload (env : Env) (request : Request)
  (d inst sch opts props : gmap string json) (scope : string) :
  project_from_json env request (payload d inst sch opts props) scope =
  Ok (selected_project env (user request) opts).
Proof.
  unfold project_from_json, selected_project.
  change ["install"; "options"; "project"] with (install_options ++ ["project"])%list.
  rewrite payload_get_options. simpl.
  destruct (opts !! "project"); [|reflexivity]. simpl.
  now rewrite organization_from_json_payload.
Qed.

Lemma nonempty_map {A B : Type} (f : A -> B) (l : list A) :
  nonempty l = true -> map f l <> [].
Proof. destruct l; simpl; [discriminate|]. intros _ H. discriminate. Qed.

Lemma on_project_change_payload (env : Env) (request : Request)
  (d inst sch opts props : gmap string json) (is_test : bool) :
  is_authenticated (user request) = true ->
  on_project_change env request (payload d inst sch opts props) is_test =
  install_response
    (payload d inst sch
       (fst (project_step env (user request) (opts, props)))
       (snd (project_step env (user request) (opts, props)))).
Proof.
  intros Hauth. unfold on_project_change.
  rewrite requires_auth_authenticated by assumption.
  rewrite project_from_json_payload, bind_Ok, payload_set_props, bind_Ok.
  unfold project_step. simpl fst. simpl snd.
  destruct (ProjectKey_filter env _) as [|k keys] eqn:Hkeys; simpl nonempty; cbv iota.
  - now rewrite bind_Ok.
  - rewrite (payload_select_first _ _ _ _ _ "dsn" (dsn_schema (k :: keys))
               (map (fun o => JStr (get_dsn_public o)) (k :: keys)));
      [now rewrite bind_Ok | apply lookup_insert_eq | reflexivity | discriminate].
Qed.

Lemma on_organization_change_payload (env : Env) (request : Request)
  (d inst sch opts props : gmap string json) (is_test : bool) :
  is_authenticated (user request) = true ->
  on_organization_change env request (payload d inst sch opts props) is_test =
  install_response
    (payload d inst sch
       (fst (organization_step env (user request) (opts, props)))
       (snd (organization_step env (user request) (opts, props)))).
Proof.
  intros Hauth. unfold on_organization_change.
  rewrite requires_auth_authenticated by assumption.
  rewrite organization_from_json_payload, bind_Ok, payload_set_props, bind_Ok.
  unfold organization_step. simpl fst. simpl snd.
  destruct (Project_filter env _ _) as [|p projects] eqn:Hprojects;
    simpl nonempty; cbv iota.
  - reflexivity.
  - rewrite (payload_select_first _ _ _ _ _ "project" (project_schema (p :: projects))
               (map (fun o => JStr (text_type (project_id o))) (p :: projects)));
      [| apply lookup_insert_eq | reflexivity | discriminate].
    rewrite bind_Ok. now apply on_project_change_payload.
Qed.

Lemma on_account_change_payload (env : Env) (request : Request)
  (d inst sch opts props : gmap string json) (is_test : bool) :
  is_authenticated (user request) = true ->
  on_account_change env request (payload d inst sch opts props) is_test =
  install_response
    (payload d inst sch
       (fst (account_step env (user request) (opts, props)))
       (snd (account_step env (user request) (opts, props)))).
Proof.
  intros Hauth. unfold on_account_change.
  rewrite requires_auth_authenticated by assumption.
  rewrite payload_set_props, bind_Ok.
  unfold account_step. simpl fst. simpl snd.
  destruct (Organization_get_for_user env _ _) as [|o organizations] eqn:Horgs;
    simpl nonempty; cbv iota.
  - reflexivity.
  - rewrite (payload_select_first _ _ _ _ _ "organization"
               (organization_schema (o :: organizations))
               (map (fun o => JStr (text_type (organization_id o))) (o :: organizations)));
      [| apply lookup_insert_eq | reflexivity | discriminate].
    rewrite bind_Ok. now apply on_organization_change_payload.
Qed.

(** ** What the lookups return *)

Lemma find_str_eq_some {A : Type} (name : A -> string) (v : json) (l : list A) (x : A) :
  List.find (fun y => str_eq (name y) v) l = Some x ->
  In x l /\ v = JStr (name x).
Proof.
  intros H. apply List.find_some in H as [Hin Heq]. split; [assumption|].
  destruct v; simpl in Heq; try discriminate.
  apply String.eqb_eq in Heq. now subst.
Qed.

(** X1. A resolved organization is one the caller sees under the scope,
    and its id is the selected value; a resolved project is a stored
    project of the resolved organization, in a team the caller sees in
    it, and its id is the selected value. *)
Theorem lookups_return_visible_matches (env : Env) (request : Request) (data : json)
  (scope : string) :
  (forall o,
     organization_from_json env request data scope = Ok (Some o) ->
     In o (Organization_get_for_user env (user request) scope)
     /\ getitem_path data ["install"; "options"; "organization"]
        = Ok (JStr (text_type (organization_id o))))
  /\ (forall p,
        project_from_json env request data scope = Ok (Some p) ->
        In p (Project_objects env)
        /\ getitem_path data ["install"; "options"; "project"]
           = Ok (JStr (text_type (project_id p)))
        /\ exists o t,
             organization_from_json env request data "project:write" = Ok (Some o)
             /\ project_organization_id p = organization_id o
             /\ In t (Team_get_for_user env (Some o) (user request) "project:write")
             /\ team_id t = project_team_id p).
Proof.
  split.
  - intros o H. unfold organization_from_json in H.
    destruct (getitem_path data _) as [v|e] eqn:Hpath.
    + injection H as H. apply find_str_eq_some in H as [Hin ->]. auto.
    + destruct e; discriminate.
  - intros p H. unfold project_from_json in H.
    destruct (getitem_path data ["install"; "options"; "project"]) as [v|e] eqn:Hpath.
    + destruct (organization_from_json env request data "project:write")
        as [org|e] eqn:Horg; [|discriminate].
      rewrite bind_Ok in H. injection H as H.
      apply find_str_eq_some in H as [Hin ->].
      unfold Project_filter in Hin. apply filter_In in Hin as [Hin Hcond].
      apply andb_true_iff in Hcond as [Ho Ht].
      destruct org as [o|]; [|discriminate].
      apply Z.eqb_eq in Ho. apply existsb_exists in Ht as (t & Htin & Hteq).
      apply Z.eqb_eq in Hteq. repeat split; auto. exists o, t. auto.
    + destruct e; discriminate.
Qed.

Lemma lookups_return_visible_matches_witness :
  In Scenario.acme
    (Organization_get_for_user Scenario.env (user Scenario.member) "project:write")
  /\ getitem_path (Scenario.data [("organization", JStr "1"); ("project", JStr "5")])
       ["install"; "options"; "organization"]
     = Ok (JStr (text_type (organization_id Scenario.acme))).
Proof.
  destruct (lookups_return_visible_matches Scenario.env Scenario.member
              (Scenario.data [("organization", JStr "1"); ("project", JStr "5")])
              "project:write") as [Horg _].
  apply Horg. reflexivity.
Defined.

(** X2. The two lookups raise nothing but [TypeError]: a missing key is
    answered [None], and only a value on the path that is not an object
    makes them raise. *)
Theorem lookups_raise_only_TypeError (env : Env) (request : Request) (data : json)
  (scope : string) (e : exn) :
  (organization_from_json env request data scope = Raise e -> e = TypeError)
  /\ (project_from_json env request data scope = Raise e -> e = TypeError).
Proof.
  assert (forall name e', getitem_path data ["install"; "options"; name] = Raise e' ->
                            e' = KeyError \/ e' = TypeError) as Hpath.
  { intros name e'. simpl. unfold getitem.
    destruct data; try (intros [= <-]; auto).
    destruct (d !! "install") as [i|]; simpl; [|intros [= <-]; auto].
    destruct i; try (intros [= <-]; auto).
    destruct (d0 !! "options") as [o|]; simpl; [|intros [= <-]; auto].
    destruct o; try (intros [= <-]; auto).
    destruct (d1 !! name); simpl; [discriminate|intros [= <-]; auto]. }
  assert (organization_from_json env request data scope = Raise e -> e = TypeError)
    as Horg.
  { unfold organization_from_json.
    destruct (getitem_path data _) as [v|e'] eqn:E; [discriminate|].
    destruct (Hpath _ _ E) as [-> | ->]; [discriminate|]. now intros [= <-]. }
  split; [exact Horg|].
  unfold project_from_json.
  destruct (getitem_path data ["install"; "options"; "project"]) as [v|e'] eqn:E.
  - destruct (organization_from_json env request data "project:write") as [org|e'] eqn:E'.
    + discriminate.
    + simpl. intros [= <-].
      unfold organization_from_json in E'.
      destruct (getitem_path data ["install"; "options"; "organization"]) as [w|e''] eqn:E'';
        [discriminate|].
      destruct (Hpath _ _ E'') as [-> | ->]; [discriminate|]. now injection E' as <-.
  - destruct (Hpath _ _ E) as [-> | ->]; [discriminate|]. now intros [= <-].
Qed.

Lemma lookups_raise_only_TypeError_witness :
  organization_from_json Scenario.env Scenario.member
    (dict_of [("install", JStr "draft")]) "project:write" = Raise TypeError.
Proof.
  destruct (organization_from_json Scenario.env Scenario.member
              (dict_of [("install", JStr "draft")]) "project:write") as [o|e] eqn:E.
  - vm_compute in E. discriminate.
  - f_equal.
    destruct (lookups_raise_only_TypeError Scenario.env Scenario.member
                (dict_of [("install", JStr "draft")]) "project:write" e) as [H _].
    exact (H E).
Defined.

(** ** What the steps keep *)

Lemma selected_organization_ext (env : Env) (u : User) (scope : string)
  (opts opts' : gmap string json) :
  opts' !! "organization" = opts !! "organization" ->
  selected_organization env u scope opts' = selected_organization env u scope opts.
Proof. intros H. unfold selected_organization. now rewrite H. Qed.

Lemma selected_project_ext (env : Env) (u : User) (opts opts' : gmap string json) :
  opts' !! "organization" = opts !! "organization" ->
  opts' !! "project" = opts !! "project" ->
  selected_project env u opts' = selected_project env u opts.
Proof.
  intros Ho Hp. unfold selected_project.
  now rewrite Hp, (selected_organization_ext _ _ _ opts opts' Ho).
Qed.

Lemma pick_other (name k : string) (enum : list json) (opts : gmap string json) :
  k <> name -> pick name enum opts !! k = opts !! k.
Proof.
  intros Hne. destruct enum; simpl; [reflexivity|].
  now rewrite lookup_insert_ne.
Qed.

Lemma pick_twice (name : string) (enum : list json) (opts : gmap string json) :
  pick name enum (pick name enum opts) = pick name enum opts.
Proof. destruct enum; simpl; [reflexivity|]. apply insert_insert_eq. Qed.

(** Each step leaves every option and every schema property it does not
    name as it was. *)
Lemma project_step_other (env : Env) (u : User)
  (s : gmap string json * gmap string json) (k : string) :
  k <> "dsn" ->
  fst (project_step env u s) !! k = fst s !! k
  /\ snd (project_step env u s) !! k = snd s !! k.
Proof.
  intros Hne. unfold project_step. simpl. split.
  - now apply pick_other.
  - now rewrite lookup_insert_ne.
Qed.

Lemma organization_step_other (env : Env) (u : User)
  (s : gmap string json * gmap string json) (k : string) :
  k <> "project" -> k <> "dsn" ->
  fst (organization_step env u s) !! k = fst s !! k
  /\ snd (organization_step env u s) !! k = snd s !! k.
Proof.
  intros Hp Hd. unfold organization_step.
  destruct (Project_filter env _ _) as [|p projects].
  - simpl. split; [reflexivity|]. now rewrite lookup_insert_ne.
  - destruct (project_step_other env u
                (<["project" := JStr (text_type (project_id p))]> (fst s),
                 <["project" := project_schema (p :: projects)]> (snd s)) k Hd)
      as [H1 H2].
    rewrite H1, H2. simpl. now rewrite !lookup_insert_ne.
Qed.

Lemma account_step_other (env : Env) (u : User)
  (s : gmap string json * gmap string json) (k : string) :
  k <> "organization" -> k <> "project" -> k <> "dsn" ->
  fst (account_step env u s) !! k = fst s !! k
  /\ snd (account_step env u s) !! k = snd s !! k.
Proof.
  intros Ho Hp Hd. unfold account_step.
  destruct (Organization_get_for_user env u "project:write") as [|o organizations].
  - simpl. split; [reflexivity|]. now rewrite lookup_insert_ne.
  - destruct (organization_step_other env u
                (<["organization" := JStr (text_type (organization_id o))]> (fst s),
                 <["organization" := organization_schema (o :: organizations)]> (snd s))
                k Hp Hd) as [H1 H2].
    rewrite H1, H2. simpl. now rewrite !lookup_insert_ne.
Qed.

(** Running a step on its own result changes nothing. *)
Lemma project_step_twice (env : Env) (u : User)
  (s : gmap string json * gmap string json) :
  project_step env u (project_step env u s) = project_step env u s.
Proof.
  unfold project_step at 1. 
  assert (selected_project env u (fst (project_step env u s))
          = selected_project env u (fst s)) as ->.
  { apply selected_project_ext; apply project_step_other; discriminate. }
  unfold project_step. simpl. f_equal.
  - apply pick_twice.
  - apply insert_insert_eq.
Qed.

Lemma organization_step_twice (env : Env) (u : User)
  (s : gmap string json * gmap string json) :
  organization_step env u (organization_step env u s) = organization_step env u s.
Proof.
  unfold organization_step at 1.
  assert (selected_organization env u "project:write"
            (fst (organization_step env u s))
          = selected_organization env u "project:write" (fst s)) as ->.
  { apply selected_organization_ext. apply organization_step_other; discriminate. }
  unfold organization_step.
  destruct (Project_filter env _ _) as [|p projects] eqn:Hprojects.
  - simpl. f_equal. apply insert_insert_eq.
  - set (s2 := (<["project" := JStr (text_type (project_id p))]> (fst s),
                <["project" := project_schema (p :: projects)]> (snd s))).
    destruct (project_step_other env u s2 "project") as [H1 H2]; [discriminate|].
    rewrite (insert_id (fst (project_step env u s2))),
            (insert_id (snd (project_step env u s2))).
    + rewrite <- surjective_pairing. apply project_step_twice.
    + rewrite H2. apply lookup_insert_eq.
    + rewrite H1. apply lookup_insert_eq.
Qed.

Lemma account_step_twice (env : Env) (u : User)
  (s : gmap string json * gmap string json) :
  account_step env u (account_step env u s) = account_step env u s.
Proof.
  unfold account_step.
  destruct (Organization_get_for_user env u "project:write") as [|o organizations].
  - simpl. f_equal. apply insert_insert_eq.
  - set (s1 := (<["organization" := JStr (text_type (organization_id o))]> (fst s),
                <["organization" := organization_schema (o :: organizations)]> (snd s))).
    destruct (organization_step_other env u s1 "organization") as [H1 H2];
      [discriminate | discriminate |].
    rewrite (insert_id (fst (organization_step env u s1))),
            (insert_id (snd (organization_step env u s1))).
    + rewrite <- surjective_pairing. apply organization_step_twice.
    + rewrite H2. apply lookup_insert_eq.
    + rewrite H1. apply lookup_insert_eq.
Qed.

(** On a payload with options and schema properties an authenticated call
    of a step returns the echo of a payload of the same frame. *)
Lemma step_on_payload (env : Env) (request : Request)
  (handler : Request -> json -> bool -> result (Response * json))
  (d inst sch opts props : gmap string json) (is_test : bool) :
  is_step env handler ->
  is_authenticated (user request) = true ->
  exists step,
    (step = account_step \/ step = organization_step \/ step = project_step)
    /\ handler request (payload d inst sch opts props) is_test =
       install_response
         (payload d inst sch
            (fst (step env (user request) (opts, props)))
            (snd (step env (user request) (opts, props)))).
Proof.
  intros [-> | [-> | ->]] Hauth.
  - exists account_step. split; [auto|]. now apply on_account_change_payload.
  - exists organization_step. split; [auto|]. now apply on_organization_change_payload.
  - exists project_step. split; [auto|]. now apply on_project_change_payload.
Qed.

(** X3. For an authenticated caller and a payload whose [install.options]
    and [install.schema.properties] are objects, each of the three steps
    returns, without raising, a response of status 200 with
    [proceed: true]. *)
Theorem steps_answer_200 (env : Env) (request : Request) (data : json)
  (handler : Request -> json -> bool -> result (Response * json))
  (is_test : bool) (opts props : gmap string json) :
  is_step env handler ->
  is_authenticated (user request) = true ->
  getitem_path data install_options = Ok (JDict opts) ->
  getitem_path data schema_properties = Ok (JDict props) ->
  exists install data',
    handler request data is_test = Ok (proceed_response install, data').
Proof.
  intros Hstep Hauth Hopts Hprops.
  destruct (payload_of_paths data opts props Hopts Hprops) as (d & inst & sch & ->).
  destruct (step_on_payload env request handler d inst sch opts props is_test
              Hstep Hauth) as (step & _ & ->).
  rewrite payload_install_response. eauto.
Qed.

(** Closes a branch [E : r = Raise e] for an evaluation [r] that returns. *)
Ltac returned_in E :=
  exfalso;
  match type of E with
  | ?r = Raise _ =>
      let H := fresh in
      assert (returned r = true) as H by (vm_compute; reflexivity);
      rewrite E in H; discriminate H
  end.

Lemma steps_answer_200_witness :
  exists install data',
    on_organization_change Scenario.env Scenario.member
      (Scenario.data [("organization", JStr "4")]) false
    = Ok (proceed_response install, data').
Proof.
  apply (steps_answer_200 Scenario.env Scenario.member
           (Scenario.data [("organization", JStr "4")])
           (on_organization_change Scenario.env) false
           (list_to_map [("organization", JStr "4")]) ∅).
  - right. left. reflexivity.
  - reflexivity.
  - reflexivity.
  - reflexivity.
Defined.

(** X4. Under the same conditions a step writes nothing but the options
    and the schema properties named [organization], [project] and [dsn]:
    every other member of the payload, of [install], of [install.schema],
    of [install.schema.properties] and of [install.options] is afterwards
    what it was. *)
Theorem steps_write_only_their_keys (env : Env) (request : Request) (data data' : json)
  (handler : Request -> json -> bool -> result (Response * json))
  (is_test : bool) (opts props : gmap string json) (resp : Response) :
  is_step env handler ->
  is_authenticated (user request) = true ->
  getitem_path data install_options = Ok (JDict opts) ->
  getitem_path data schema_properties = Ok (JDict props) ->
  handler request data is_test = Ok (resp, data') ->
  (forall k, k <> "install" -> getitem data' k = getitem data k)
  /\ (forall k, k <> "options" -> k <> "schema" ->
                getitem_path data' ["install"; k] = getitem_path data ["install"; k])
  /\ (forall k, k <> "properties" ->
                getitem_path data' ["install"; "schema"; k]
                = getitem_path data ["install"; "schema"; k])
  /\ (forall k, k <> "organization" -> k <> "project" -> k <> "dsn" ->
                getitem_path data' ["install"; "schema"; "properties"; k]
                = getitem_path data ["install"; "schema"; "properties"; k]
                /\ getitem_path data' ["install"; "options"; k]
                   = getitem_path data ["install"; "options"; k]).
Proof.
  intros Hstep Hauth Hopts Hprops Hrun.
  destruct (payload_of_paths data opts props Hopts Hprops) as (d & inst & sch & ->).
  destruct (step_on_payload env request handler d inst sch opts props is_test
              Hstep Hauth) as (step & Hwhich & Heq).
  rewrite Heq, payload_install_response in Hrun. injection Hrun as _ <-.
  assert (forall k, k <> "organization" -> k <> "project" -> k <> "dsn" ->
                    fst (step env (user request) (opts, props)) !! k = opts !! k
                    /\ snd (step env (user request) (opts, props)) !! k = props !! k)
    as Hother.
  { intros k Ho Hp Hd. destruct Hwhich as [-> | [-> | ->]].
    - now apply (account_step_other env (user request) (opts, props) k).
    - now apply (organization_step_other env (user request) (opts, props) k).
    - now apply (project_step_other env (user request) (opts, props) k). }
  unfold payload, assemble. repeat split.
  - intros k Hk. unfold getitem. now rewrite !lookup_insert_ne by congruence.
  - intros k Hk1 Hk2. simpl. rewrite !lookup_insert_eq. simpl.
    now rewrite !lookup_insert_ne by congruence.
  - intros k Hk. simpl. rewrite !lookup_insert_eq. simpl. rewrite !lookup_insert_eq.
    simpl. now rewrite !lookup_insert_ne by congruence.
  - simpl. rewrite !lookup_insert_eq. simpl. rewrite !lookup_insert_eq. simpl.
    rewrite !lookup_insert_eq. simpl.
    now destruct (Hother k) as [_ ->].
  - simpl. rewrite !lookup_insert_eq. simpl.
    rewrite !(lookup_insert_ne _ "schema" "options") by discriminate.
    rewrite !lookup_insert_eq. simpl.
    now destruct (Hother k) as [-> _].
Qed.

(** X5. Under the same conditions a step is idempotent: called again on
    the payload it returned, it returns the same response and leaves that
    payload as it is. *)
Theorem steps_are_idempotent (env : Env) (request : Request) (data data' : json)
  (handler : Request -> json -> bool -> result (Response * json))
  (is_test : bool) (opts props : gmap string json) (resp : Response) :
  is_step env handler ->
  is_authenticated (user request) = true ->
  getitem_path data install_options = Ok (JDict opts) ->
  getitem_path data schema_properties = Ok (JDict props) ->
  handler request data is_test = Ok (resp, data') ->
  handler request data' is_test = Ok (resp, data').
Proof.
  intros Hstep Hauth Hopts Hprops Hrun.
  destruct (payload_of_paths data opts props Hopts Hprops) as (d & inst & sch & ->).
  destruct Hstep as [-> | [-> | ->]].
  - rewrite on_account_change_payload in Hrun by assumption.
    rewrite payload_install_response in Hrun. injection Hrun as <- <-.
    rewrite on_account_change_payload by assumption.
    rewrite <- (surjective_pairing (account_step env (user request) (opts, props))),
      account_step_twice.
    apply payload_install_response.
  - rewrite on_organization_change_payload in Hrun by assumption.
    rewrite payload_install_response in Hrun. injection Hrun as <- <-.
    rewrite on_organization_change_payload by assumption.
    rewrite <- (surjective_pairing (organization_step env (user request) (opts, props))),
      organization_step_twice.
    apply payload_install_response.
  - rewrite on_project_change_payload in Hrun by assumption.
    rewrite payload_install_response in Hrun. injection Hrun as <- <-.
    rewrite on_project_change_payload by assumption.
    change (install_response
              (payload d inst sch
                 (fst (project_step env (user request)
                         (project_step env (user request) (opts, props))))
                 (snd (project_step env (user request)
                         (project_step env (user request) (opts, props)))))
            = Ok (proceed_response
                    (JDict (<["schema" :=
                                JDict (<["properties" :=
                                           JDict (snd (project_step env (user request)
                                                         (opts, props)))]> sch)]>
                              (<["options" :=
                                   JDict (fst (project_step env (user request)
                                                 (opts, props)))]> inst))),
                  payload d inst sch
                    (fst (project_step env (user request) (opts, props)))
                    (snd (project_step env (user request) (opts, props))))).
    rewrite project_step_twice.
    apply payload_install_response.
Qed.

Lemma steps_write_only_their_keys_witness :
  exists resp data',
    on_account_change Scenario.env Scenario.member
      (Scenario.data [("organization", JStr "4"); ("theme", JStr "dark")]) false
    = Ok (resp, data')
    /\ getitem data' "event" = Ok (JStr "option-change:account")
    /\ getitem_path data' ["install"; "product"] = Ok (JStr "sentry")
    /\ getitem_path data' ["install"; "options"; "theme"] = Ok (JStr "dark").
Proof.
  destruct (on_account_change Scenario.env Scenario.member
              (Scenario.data [("organization", JStr "4"); ("theme", JStr "dark")]) false)
    as [[resp data']|e] eqn:E; [|returned_in E].
  exists resp, data'. split; [reflexivity|].
  destruct (steps_write_only_their_keys Scenario.env Scenario.member
              (Scenario.data [("organization", JStr "4"); ("theme", JStr "dark")]) data'
              (on_account_change Scenario.env) false
              (list_to_map [("organization", JStr "4"); ("theme", JStr "dark")]) ∅ resp)
    as (Htop & Hinstall & _ & Hnamed).
  - left. reflexivity.
  - reflexivity.
  - reflexivity.
  - reflexivity.
  - exact E.
  - split; [|split].
    + rewrite Htop by discriminate. reflexivity.
    + rewrite Hinstall by discriminate. reflexivity.
    + destruct (Hnamed "theme" ltac:(discriminate) ltac:(discriminate)
                  ltac:(discriminate)) as [_ ->].
      reflexivity.
Defined.

Lemma steps_are_idempotent_witness :
  exists resp data',
    on_account_change Scenario.env Scenario.member
      (Scenario.data [("organization", JStr "4")]) false = Ok (resp, data')
    /\ on_account_change Scenario.env Scenario.member data' false = Ok (resp, data').
Proof.
  destruct (on_account_change Scenario.env Scenario.member
              (Scenario.data [("organization", JStr "4")]) false)
    as [[resp data']|e] eqn:E; [|returned_in E].
  exists resp, data'. split; [reflexivity|].
  apply (steps_are_idempotent Scenario.env Scenario.member
           (Scenario.data [("organization", JStr "4")]) data'
           (on_account_change Scenario.env) false
           (list_to_map [("organization", JStr "4")]) ∅ resp).
  - left. reflexivity.
  - reflexivity.
  - reflexivity.
  - reflexivity.
  - exact E.
Defined.

(** ** The steps one by one *)

Lemma find_head {A : Type} (name : A -> string) (x : A) (l : list A) :
  List.find (fun y => str_eq (name y) (JStr (name x))) (x :: l) = Some x.
Proof. cbn [List.find]. now rewrite str_eq_refl. Qed.

(** X6. For an authenticated caller with at least one visible
    organization, [on_account_change] selects the first of them whatever
    the payload had selected, stores the fragment listing all of them, and
    goes on to list the projects of that first organization. *)
Theorem account_change_selects_first_organization (env : Env) (request : Request)
  (data : json) (is_test : bool) (opts props : gmap string json)
  (o : Organization) (organizations : list Organization) :
  is_authenticated (user request) = true ->
  getitem_path data install_options = Ok (JDict opts) ->
  getitem_path data schema_properties = Ok (JDict props) ->
  Organization_get_for_user env (user request) "project:write" = o :: organizations ->
  exists install data',
    on_account_change env request data is_test = Ok (proceed_response install, data')
    /\ getitem_path install ["options"; "organization"]
       = Ok (JStr (text_type (organization_id o)))
    /\ getitem_path install ["schema"; "properties"; "organization"]
       = Ok (organization_schema (o :: organizations))
    /\ getitem_path install ["schema"; "properties"; "project"]
       = Ok (project_schema
               (Project_filter env (Some o)
                  (Team_get_for_user env (Some o) (user request) "project:write"))).
Proof.
  intros Hauth Hopts Hprops Horgs.
  destruct (payload_of_paths data opts props Hopts Hprops) as (d & inst & sch & ->).
  rewrite on_account_change_payload, payload_install_response by assumption.
  eexists _, _. split; [reflexivity|].
  set (s1 := (<["organization" := JStr (text_type (organization_id o))]> opts,
              <["organization" := organization_schema (o :: organizations)]> props)).
  assert (account_step env (user request) (opts, props)
          = organization_step env (user request) s1) as ->.
  { unfold account_step. now rewrite Horgs. }
  destruct (organization_step_other env (user request) s1 "organization")
    as [H1 H2]; [discriminate | discriminate |].
  assert (selected_organization env (user request) "project:write" (fst s1) = Some o)
    as Hsel.
  { unfold selected_organization, s1. simpl. rewrite lookup_insert_eq, Horgs.
    apply (find_head (fun org => text_type (organization_id org))). }
  split; [|split].
  - simpl. rewrite lookup_insert_ne by discriminate. rewrite lookup_insert_eq. simpl.
    rewrite H1. unfold s1. simpl. now rewrite lookup_insert_eq.
  - simpl. rewrite lookup_insert_eq. simpl. rewrite lookup_insert_eq. simpl.
    rewrite H2. unfold s1. simpl. now rewrite lookup_insert_eq.
  - simpl. rewrite lookup_insert_eq. simpl. rewrite lookup_insert_eq. simpl.
    unfold organization_step. rewrite Hsel.
    destruct (Project_filter env (Some o) _) as [|p projects].
    + simpl. now rewrite lookup_insert_eq.
    + destruct (project_step_other env (user request)
                  (<["project" := JStr (text_type (project_id p))]> (fst s1),
                   <["project" := project_schema (p :: projects)]> (snd s1)) "project")
        as [_ H3]; [discriminate|].
      rewrite H3. simpl. now rewrite lookup_insert_eq.
Qed.

Lemma account_change_selects_first_organization_witness :
  exists install data',
    on_account_change Scenario.env Scenario.member
      (Scenario.data [("organization", JStr "4")]) false
    = Ok (proceed_response install, data')
    /\ getitem_path install ["options"; "organization"] = Ok (JStr (text_type 1))
    /\ getitem_path install ["schema"; "properties"; "organization"]
       = Ok (organization_schema [Scenario.acme; Scenario.globex])
    /\ getitem_path install ["schema"; "properties"; "project"]
       = Ok (project_schema
               (Project_filter Scenario.env (Some Scenario.acme)
                  (Team_get_for_user Scenario.env (Some Scenario.acme)
                     (user Scenario.member) "project:write"))).
Proof.
  apply (account_change_selects_first_organization Scenario.env Scenario.member
           (Scenario.data [("organization", JStr "4")]) false
           (list_to_map [("organization", JStr "4")]) ∅
           Scenario.acme [Scenario.globex]).
  - reflexivity.
  - reflexivity.
  - reflexivity.
  - reflexivity.
Defined.

(** The members of the [install] object a step answers with. *)
Lemma install_members (inst sch opts props : gmap string json) :
  getitem (JDict (<["schema" := JDict (<["properties" := JDict props]> sch)]>
                    (<["options" := JDict opts]> inst))) "options"
  = Ok (JDict opts)
  /\ getitem_path (JDict (<["schema" := JDict (<["properties" := JDict props]> sch)]>
                            (<["options" := JDict opts]> inst)))
        ["schema"; "properties"]
     = Ok (JDict props)
  /\ (forall k,
        getitem_path (JDict (<["schema" := JDict (<["properties" := JDict props]> sch)]>
                               (<["options" := JDict opts]> inst)))
          ["schema"; "properties"; k]
        = getitem (JDict props) k)
  /\ (forall k,
        getitem_path (JDict (<["schema" := JDict (<["properties" := JDict props]> sch)]>
                               (<["options" := JDict opts]> inst)))
          ["options"; k]
        = getitem (JDict opts) k).
Proof.
  repeat split.
  - unfold getitem. rewrite lookup_insert_ne by discriminate.
    now rewrite lookup_insert_eq.
  - simpl. rewrite lookup_insert_eq. simpl. now rewrite lookup_insert_eq.
  - intros k. simpl. rewrite lookup_insert_eq. simpl. rewrite lookup_insert_eq.
    simpl. now destruct (props !! k).
  - intros k. simpl. rewrite lookup_insert_ne by discriminate.
    rewrite lookup_insert_eq. simpl. now destruct (opts !! k).
Qed.

(** X7. For an authenticated caller, [on_organization_change] lists the
    projects of the organization the payload selects that lie in a team the
    caller sees there. With none, the unknown or missing organization
    included, it stops: the [project] fragment has an empty enumeration
    and the options are untouched. Otherwise it selects the first project
    and goes on to the keys. *)
Theorem organization_change_lists_projects (env : Env) (request : Request)
  (data : json) (is_test : bool) (opts props : gmap string json)
  (org : option Organization) :
  is_authenticated (user request) = true ->
  getitem_path data install_options = Ok (JDict opts) ->
  getitem_path data schema_properties = Ok (JDict props) ->
  organization_from_json env request data "project:write" = Ok org ->
  exists install data',
    on_organization_change env request data is_test
    = Ok (proceed_response install, data')
    /\ getitem_path install ["schema"; "properties"; "project"]
       = Ok (project_schema
               (Project_filter env org
                  (Team_get_for_user env org (user request) "project:write")))
    /\ (Project_filter env org
          (Team_get_for_user env org (user request) "project:write") = [] ->
        getitem install "options" = Ok (JDict opts)
        /\ getitem_path install ["schema"; "properties"]
           = Ok (JDict (<["project" := project_schema []]> props)))
    /\ (forall p projects,
          Project_filter env org
            (Team_get_for_user env org (user request) "project:write")
          = p :: projects ->
          getitem_path install ["options"; "project"]
          = Ok (JStr (text_type (project_id p)))
          /\ exists fragment,
               getitem_path install ["schema"; "properties"; "dsn"] = Ok fragment).
Proof.
  intros Hauth Hopts Hprops Horg.
  destruct (payload_of_paths data opts props Hopts Hprops) as (d & inst & sch & ->).
  rewrite organization_from_json_payload in Horg. injection Horg as Horg.
  rewrite on_organization_change_payload, payload_install_response by assumption.
  eexists _, _. split; [reflexivity|].
  destruct (install_members inst sch
              (fst (organization_step env (user request) (opts, props)))
              (snd (organization_step env (user request) (opts, props))))
    as (Hio & Hip & Hipk & Hiok).
  rewrite Hio, Hip, !Hipk, Hiok. clear Hio Hip Hipk Hiok.
  unfold organization_step. simpl fst. simpl snd. rewrite Horg.
  destruct (Project_filter env org _) as [|p projects] eqn:Hprojects.
  - simpl fst. simpl snd. unfold getitem. rewrite lookup_insert_eq.
    split; [reflexivity|]. split; [auto|]. intros p projects H. discriminate H.
  - set (s2 := (<["project" := JStr (text_type (project_id p))]> opts,
                <["project" := project_schema (p :: projects)]> props)).
    destruct (project_step_other env (user request) s2 "project")
      as [H1 H2]; [discriminate|].
    assert (snd (project_step env (user request) s2) !! "dsn"
            = Some (dsn_schema
                      (ProjectKey_filter env
                         (selected_project env (user request) (fst s2))))) as H3.
    { unfold project_step. simpl. apply lookup_insert_eq. }
    unfold getitem. rewrite H1, H2, H3. unfold s2. simpl fst. simpl snd.
    rewrite !lookup_insert_eq.
    split; [reflexivity|]. split; [discriminate|].
    intros p' projects' [= <- <-]. split; [reflexivity|]. eauto.
Qed.

Lemma organization_change_lists_projects_witness :
  exists install data',
    on_organization_change Scenario.env Scenario.member
      (Scenario.data [("organization", JStr "4")]) false
    = Ok (proceed_response install, data')
    /\ getitem_path install ["schema"; "properties"; "project"]
       = Ok (project_schema [])
    /\ getitem install "options" = Ok (dict_of [("organization", JStr "4")]).
Proof.
  destruct (organization_change_lists_projects Scenario.env Scenario.member
              (Scenario.data [("organization", JStr "4")]) false
              (list_to_map [("organization", JStr "4")]) ∅ (Some Scenario.globex))
    as (install & data' & Hrun & Hfragment & Hnone & _).
  - reflexivity.
  - reflexivity.
  - reflexivity.
  - reflexivity.
  - exists install, data'. split; [exact Hrun|]. split; [exact Hfragment|].
    apply Hnone. reflexivity.
Defined.

(** X8. For an authenticated caller, [on_project_change] is the last step:
    it stores the [dsn] fragment listing the public DSN of every key of
    the project the payload selects and nothing else in the schema; with
    no key, the unknown or missing project included, the options are
    untouched, otherwise the first DSN is selected. *)
Theorem project_change_lists_keys (env : Env) (request : Request)
  (data : json) (is_test : bool) (opts props : gmap string json)
  (project : option Project) :
  is_authenticated (user request) = true ->
  getitem_path data install_options = Ok (JDict opts) ->
  getitem_path data schema_properties = Ok (JDict props) ->
  project_from_json env request data "project:write" = Ok project ->
  exists install data',
    on_project_change env request data is_test = Ok (proceed_response install, data')
    /\ getitem_path install ["schema"; "properties"]
       = Ok (JDict (<["dsn" := dsn_schema (ProjectKey_filter env project)]> props))
    /\ (ProjectKey_filter env project = [] -> getitem install "options" = Ok (JDict opts))
    /\ (forall k keys,
          ProjectKey_filter env project = k :: keys ->
          getitem install "options"
          = Ok (JDict (<["dsn" := JStr (get_dsn_public k)]> opts))).
Proof.
  intros Hauth Hopts Hprops Hproject.
  destruct (payload_of_paths data opts props Hopts Hprops) as (d & inst & sch & ->).
  rewrite project_from_json_payload in Hproject. injection Hproject as Hproject.
  rewrite on_project_change_payload, payload_install_response by assumption.
  eexists _, _. split; [reflexivity|].
  destruct (install_members inst sch
              (fst (project_step env (user request) (opts, props)))
              (snd (project_step env (user request) (opts, props))))
    as (Hio & Hip & _ & _).
  rewrite Hio, Hip. clear Hio Hip.
  unfold project_step. simpl fst. simpl snd. rewrite Hproject.
  split; [reflexivity|]. split.
  - now intros ->.
  - now intros k keys ->.
Qed.

Lemma project_change_lists_keys_witness :
  exists install data',
    on_project_change Scenario.env Scenario.member
      (Scenario.data [("organization", JStr "1"); ("project", JStr "2")]) false
    = Ok (proceed_response install, data')
    /\ getitem_path install ["schema"; "properties"]
       = Ok (JDict (<["dsn" := dsn_schema [Scenario.web_key; Scenario.web_key_2]]> ∅))
    /\ getitem install "options"
       = Ok (JDict (<["dsn" := JStr "https://abc123@sentry.io/2"]>
                      (list_to_map [("organization", JStr "1"); ("project", JStr "2")]))).
Proof.
  destruct (project_change_lists_keys Scenario.env Scenario.member
              (Scenario.data [("organization", JStr "1"); ("project", JStr "2")]) false
              (list_to_map [("organization", JStr "1"); ("project", JStr "2")]) ∅
              (Some Scenario.web))
    as (install & data' & Hrun & Hschema & _ & Hfirst).
  - reflexivity.
  - reflexivity.
  - reflexivity.
  - reflexivity.
  - exists install, data'. split; [exact Hrun|]. split; [exact Hschema|].
    apply (Hfirst Scenario.web_key [Scenario.web_key_2]). reflexivity.
Defined.

(** ** Payloads without the objects the steps write to *)

Lemma setitem_path_raises (obj : json) (path : list string) (k : string) (v : json)
  (e : exn) :
  getitem_path obj path = Raise e -> setitem_path obj path k v = Raise e.
Proof.
  revert obj. induction path as [|k1 path IH]; intros obj; simpl; [discriminate|].
  destruct (getitem obj k1) as [child|e'] eqn:E; simpl; [|auto].
  intros H. now rewrite (IH child H).
Qed.

(** X9. The steps do not guard their writes: for an authenticated caller,
    whatever exception the path [install.schema.properties] raises on the
    payload escapes [on_account_change], and on a payload without an
    [install] member each of the three steps raises [KeyError], although
    the lookups of the last two answer the same payload with [None]. *)
Theorem steps_raise_without_schema (env : Env) (request : Request) (data : json)
  (is_test : bool) :
  is_authenticated (user request) = true ->
  (forall e, getitem_path data schema_properties = Raise e ->
             on_account_change env request data is_test = Raise e)
  /\ (getitem data "install" = Raise KeyError ->
      on_organization_change env request data is_test = Raise KeyError
      /\ on_project_change env request data is_test = Raise KeyError
      /\ organization_from_json env request data "project:write" = Ok None
      /\ project_from_json env request data "project:write" = Ok None).
Proof.
  intros Hauth. split.
  - intros e He. unfold on_account_change.
    rewrite requires_auth_authenticated by assumption.
    now rewrite (setitem_path_raises _ _ _ _ _ He).
  - intros Hinstall.
    assert (organization_from_json env request data "project:write" = Ok None) as Horg.
    { unfold organization_from_json. simpl. now rewrite Hinstall. }
    assert (project_from_json env request data "project:write" = Ok None) as Hproject.
    { unfold project_from_json. simpl. now rewrite Hinstall. }
    assert (forall k v, setitem_path data schema_properties k v = Raise KeyError)
      as Hset.
    { intros k v. apply setitem_path_raises. simpl. now rewrite Hinstall. }
    repeat split; try assumption.
    + unfold on_organization_change.
      rewrite requires_auth_authenticated by assumption.
      now rewrite Horg, bind_Ok, Hset.
    + unfold on_project_change.
      rewrite requires_auth_authenticated by assumption.
      now rewrite Hproject, bind_Ok, Hset.
Qed.

Lemma steps_raise_without_schema_witness :
  on_account_change Scenario.env Scenario.member
    (dict_of [("install", dict_of [("options", dict_of [])])]) false = Raise KeyError
  /\ on_project_change Scenario.env Scenario.member
       (dict_of [("event", JStr "option-change:project")]) false = Raise KeyError.
Proof.
  destruct (steps_raise_without_schema Scenario.env Scenario.member
              (dict_of [("install", dict_of [("options", dict_of [])])]) false eq_refl)
    as [Haccount _].
  destruct (steps_raise_without_schema Scenario.env Scenario.member
              (dict_of [("event", JStr "option-change:project")]) false eq_refl)
    as [_ Hothers].
  split.
  - apply Haccount. reflexivity.
  - apply Hothers. reflexivity.
Defined.

(** ** The answers of [post] *)

Lemma install_response_shape (data : json) (resp : Response) (data' : json) :
  install_response data = Ok (resp, data') ->
  data' = data /\ exists install, resp = proceed_response install.
Proof.
  unfold install_response. destruct (getitem data "install"); simpl; [|discriminate].
  intros [= <- <-]. eauto.
Qed.

Lemma bind_Ok_inv {A B : Type} (r : result A) (k : A -> result B) (b : B) :
  bind r k = Ok b -> exists a, r = Ok a /\ k a = Ok b.
Proof. destruct r; simpl; [eauto|discriminate]. Qed.

Lemma on_project_change_shape (env : Env) (request : Request) (data : json)
  (is_test : bool) (resp : Response) (data' : json) :
  on_project_change env request data is_test = Ok (resp, data') ->
  resp = unauthorized_response \/ exists install, resp = proceed_response install.
Proof.
  unfold on_project_change, requires_auth.
  destruct (negb (is_authenticated (user request))); [intros [= <- <-]; auto|].
  intros H. right.
  apply bind_Ok_inv in H as (project & _ & H).
  apply bind_Ok_inv in H as (data1 & _ & H).
  apply bind_Ok_inv in H as (data2 & _ & H).
  now apply install_response_shape in H.
Qed.

Lemma on_organization_change_shape (env : Env) (request : Request) (data : json)
  (is_test : bool) (resp : Response) (data' : json) :
  on_organization_change env request data is_test = Ok (resp, data') ->
  resp = unauthorized_response \/ exists install, resp = proceed_response install.
Proof.
  unfold on_organization_change, requires_auth.
  destruct (negb (is_authenticated (user request))); [intros [= <- <-]; auto|].
  intros H.
  apply bind_Ok_inv in H as (org & _ & H).
  apply bind_Ok_inv in H as (data1 & _ & H).
  destruct (nonempty _).
  - apply bind_Ok_inv in H as (data2 & _ & H).
    now apply on_project_change_shape in H.
  - right. now apply install_response_shape in H.
Qed.

Lemma on_account_change_shape (env : Env) (request : Request) (data : json)
  (is_test : bool) (resp : Response) (data' : json) :
  on_account_change env request data is_test = Ok (resp, data') ->
  resp = unauthorized_response \/ exists install, resp = proceed_response install.
Proof.
  unfold on_account_change, requires_auth.
  destruct (negb (is_authenticated (user request))); [intros [= <- <-]; auto|].
  intros H.
  apply bind_Ok_inv in H as (data1 & _ & H).
  destruct (nonempty _).
  - apply bind_Ok_inv in H as (data2 & _ & H).
    now apply on_organization_change_shape in H.
  - right. now apply install_response_shape in H.
Qed.

Lemma dispatch_shape (env : Env) (request : Request) (data event : json)
  (is_test : bool) (resp : Response) (data' : json) :
  dispatch env request data event is_test = Ok (resp, data') ->
  resp = unauthorized_response \/ exists install, resp = proceed_response install.
Proof.
  unfold dispatch, on_preview.
  destruct (str_eq "option-change:account" event);
    [apply on_account_change_shape|].
  destruct (str_eq "option-change:organization" event);
    [apply on_organization_change_shape|].
  destruct (str_eq "option-change:project" event);
    [apply on_project_change_shape|].
  destruct (str_eq "preview" event).
  - destruct (negb (is_authenticated (user request)));
      [|apply on_account_change_shape].
    intros H. right. now apply install_response_shape in H.
  - intros H. right. now apply install_response_shape in H.
Qed.

(** What [post] leaves behind when it returns before line 214. *)
Lemma post_checks_returned (env : Env) (request : Request) (o : Outcome) :
  post_checks env request = Returned o ->
  (response o = Ok bad_request
   /\ exists records message logging_data,
        log o = (records ++ [log_record ERROR message logging_data])%list
        /\ Forall (fun r => log_level r = INFO) records)
  \/ (exists e, response o = Raise e)
     /\ Forall (fun r => log_level r = INFO) (log o).
Proof.
  unfold post_checks, reject, escape.
  destruct (json_loads env (body request)) as [data|].
  2: { intros [= <-]. left. split; [reflexivity|]. exists []. simpl. eauto. }
  destruct (secondary_auth env request data _) as [[request' logging_data]|e].
  2: { intros [= <-]. right. simpl. eauto. }
  destruct (dict_get data "event" JNull) as [event|e].
  2: { intros [= <-]. right. simpl. eauto. }
  destruct (format_event event) as [message|e] eqn:Hformat.
  2: { intros [= <-]. right. simpl. eauto. }
  apply format_event_Ok in Hformat as [-> _].
  destruct (header_value (HTTP_X_SIGNATURE_HMAC_SHA256_HEX request)) as [signature|].
  2: { intros [= <-]. left. split; [reflexivity|]. simpl. eexists [_], _, _.
       split; [reflexivity|]. repeat constructor. }
  destruct (header_value (HTTP_X_SIGNATURE_KEY_VARIANT request)) as [variant|].
  2: { intros [= <-]. left. split; [reflexivity|]. simpl. eexists [_], _, _.
       split; [reflexivity|]. repeat constructor. }
  destruct (select_key env variant) as [key|].
  2: { intros [= <-]. left. split; [reflexivity|]. simpl. eexists [_], _, _.
       split; [reflexivity|]. repeat constructor. }
  destruct (app_id_of data) as [app_id|e].
  2: { intros [= <-]. right. simpl. split; [eauto|]. repeat constructor. }
  destruct (not_local_app app_id && String.eqb variant "test"); [|discriminate].
  intros [= <-]. left. split; [reflexivity|]. simpl. eexists [_], _, _.
  split; [reflexivity|]. repeat constructor.
Qed.

Lemma post_checks_frame_log (env : Env) (request : Request) (f : Frame) :
  post_checks env request = Verifying f ->
  Forall (fun r => log_level r = INFO) (frame_log f).
Proof.
  intros H. apply post_checks_verifying_log in H as [_ ->]. repeat constructor.
Qed.

(** ** The digest has sixty-four characters *)

Lemma hmac_sha256_hex_length (payload secret : string) :
  String.length (hmac_sha256_hex payload secret) = 64%nat.
Proof.
  unfold hmac_sha256_hex. rewrite <- hexdigest_is_rfc2104. apply hexdigest_length.
Qed.

(** X10. The signature [verify] compares against has sixty-four
    characters, so [verify] never accepts a supplied signature of another
    length, the empty one included; when key and payload are ASCII, so that
    the comparison is reached, it returns [False]. *)
Theorem verify_rejects_other_lengths (payload key signature : string) :
  String.length signature <> 64%nat ->
  verify payload key signature <> Ok true
  /\ (is_ascii key = true -> is_ascii payload = true ->
      verify payload key signature = Ok false).
Proof.
  intros Hlen.
  assert (Hno : verify payload key signature <> Ok true).
  { intros H. apply verify_Ok_true in H as (_ & _ & ->).
    now rewrite hmac_sha256_hex_length in Hlen. }
  split; [exact Hno|].
  intros Hkey Hpayload. unfold verify in *.
  rewrite expected_signature_ascii in * by assumption. simpl in *.
  destruct (constant_time_compare signature _); [contradiction|reflexivity].
Qed.

Lemma verify_rejects_other_lengths_witness :
  verify "The quick brown fox jumps over the lazy dog" "key"
    "f7bc83f430538424b13298e6aa6fb143ef4d59a14946175997479dbc2d1a3cd" = Ok false.
Proof.
  apply verify_rejects_other_lengths.
  - vm_compute. discriminate.
  - reflexivity.
  - reflexivity.
Defined.

(** ** Rejections *)

(** X11. A body [json.loads] rejects is answered 400 whatever the headers
    are: nothing but the [invalid-json] error is logged, the request keeps
    its caller and no payload exists. *)
Theorem malformed_body_rejected (env : Env) (request : Request) :
  json_loads env (body request) = None ->
  post env request =
  {| response := Ok bad_request;
     request_after := request;
     data_after := None;
     log := [log_record ERROR InvalidJson (initial_logging_data request)] |}.
Proof. intros H. unfold post, post_checks. now rewrite H. Qed.

Lemma malformed_body_rejected_witness :
  post Scenario.env Scenario.garbage =
  {| response := Ok bad_request;
     request_after := Scenario.garbage;
     data_after := None;
     log := [log_record ERROR InvalidJson (initial_logging_data Scenario.garbage)] |}.
Proof. apply malformed_body_rejected. reflexivity. Defined.

(** X12. A request that reaches line 214 with an ASCII body and key and a
    signature other than the hex HMAC-SHA256 of the body under the
    selected key is answered 400: no handler runs, the payload stays as
    parsed, and the [invalid-signature] error closes the log. With a body
    that holds a byte above 0x7F, whatever the signature,
    [UnicodeDecodeError] escapes [post] from [verify] and no error is
    logged. *)
Theorem signature_mismatch_rejected (env : Env) (request : Request) (f : Frame) :
  post_checks env request = Verifying f ->
  (is_ascii (frame_key f) = true ->
   is_ascii (body request) = true ->
   frame_signature f <> hmac_sha256_hex (body request) (frame_key f) ->
   post env request =
   {| response := Ok bad_request;
      request_after := frame_request f;
      data_after := Some (frame_data f);
      log := frame_log f
             ++ [log_record ERROR InvalidSignature (frame_logging_data f)] |})
  /\ (is_ascii (body request) = false ->
      post env request =
      {| response := Raise UnicodeDecodeError;
         request_after := frame_request f;
         data_after := Some (frame_data f);
         log := frame_log f |}).
Proof.
  intros Hchecks. unfold post. rewrite Hchecks. unfold post_verified. split.
  - intros Hkey Hbody Hne.
    destruct (verify (body request) (frame_key f) (frame_signature f))
      as [[|]|e] eqn:E; [| reflexivity |].
    + apply verify_Ok_true in E as (_ & _ & E). contradiction.
    + unfold verify in E. rewrite expected_signature_ascii in E by assumption.
      discriminate E.
  - intros Hbody. unfold verify.
    now rewrite expected_signature_not_ascii.
Qed.

Lemma signature_mismatch_rejected_witness :
  (response (post Scenario.env Scenario.tampered) = Ok bad_request
   /\ data_after (post Scenario.env Scenario.tampered)
      = Some (Fixture.value (Fixture.event_payload "local" "uninstall")))
  /\ response (post Scenario.env Scenario.accented_preview) = Raise UnicodeDecodeError.
Proof.
  split.
  - assert (exists f,
              post_checks Scenario.env Scenario.tampered = Verifying f
              /\ frame_signature f
                 = hmac_sha256_hex
                     (Fixture.text (Fixture.event_payload "local" "preview")) "test-key"
              /\ frame_key f = "test-key"
              /\ frame_data f = Fixture.value (Fixture.event_payload "local" "uninstall"))
      as (f & Hchecks & Hsig & Hkey & Hdata).
    { eexists. split; [reflexivity|]. repeat split. }
    destruct (signature_mismatch_rejected Scenario.env Scenario.tampered f Hchecks)
      as [Hmismatch _].
    rewrite Hmismatch.
    + split; [reflexivity|]. simpl. now rewrite Hdata.
    + now rewrite Hkey.
    + reflexivity.
    + rewrite Hsig, Hkey. vm_compute. discriminate.
  - assert (exists f, post_checks Scenario.env Scenario.accented_preview = Verifying f)
      as (f & Hchecks).
    { eexists. reflexivity. }
    destruct (signature_mismatch_rejected Scenario.env Scenario.accented_preview f
                Hchecks) as [_ Hraises].
    rewrite Hraises; reflexivity.
Defined.

Lemma header_value_Some (header : option string) (s : string) :
  header_value header = Some s -> header = Some s /\ s <> EmptyString.
Proof.
  destruct header as [[|c h]|]; simpl; try discriminate.
  intros [= <-]. split; [reflexivity|discriminate].
Qed.

Lemma select_key_Some (env : Env) (variant key : string) :
  select_key env variant = Some key ->
  variant = "test" /\ key = "test-key"
  \/ variant = "1" /\ key = cloudflare_secret_key env.
Proof.
  unfold select_key.
  destruct (String.eqb variant "test") eqn:E1.
  - apply String.eqb_eq in E1. intros [= <-]. auto.
  - destruct (String.eqb variant "1") eqn:E2; [|discriminate].
    apply String.eqb_eq in E2. intros [= <-]. auto.
Qed.

(** X13. [post] answers with anything but 400 only a request whose
    variant header is [test] or [1] and whose signature header is the hex
    HMAC-SHA256 of the raw body under the key of that variant, the test
    key or the configured secret; for the test key the payload's [app.id]
    is moreover the empty string or [local]. *)
Theorem answered_requests_are_signed (env : Env) (request : Request) (resp : Response) :
  response (post env request) = Ok resp ->
  resp <> bad_request ->
  exists variant key,
    HTTP_X_SIGNATURE_KEY_VARIANT request = Some variant
    /\ HTTP_X_SIGNATURE_HMAC_SHA256_HEX request
       = Some (hmac_sha256_hex (body request) key)
    /\ (variant = "test" /\ key = "test-key"
        /\ (exists data,
              json_loads env (body request) = Some data
              /\ (app_id_of data = Ok (JStr "") \/ app_id_of data = Ok (JStr "local")))
        \/ variant = "1" /\ key = cloudflare_secret_key env).
Proof.
  intros Hresp Hnot. unfold post in Hresp.
  destruct (post_checks env request) as [o|f] eqn:Hchecks.
  - apply post_checks_returned in Hchecks as [[Hbad _] | [[e He] _]].
    + rewrite Hbad in Hresp. injection Hresp as <-. contradiction.
    + rewrite He in Hresp. discriminate.
  - unfold post_verified in Hresp.
    destruct (verify (body request) (frame_key f) (frame_signature f))
      as [[|]|e] eqn:Hverify.
    + apply verify_Ok_true in Hverify as (_ & _ & Hverify).
      apply post_checks_verifying in Hchecks
        as (Hjson & _ & _ & Hsig & Hvariant & Hkey & app_id & Happ & Hgate).
      apply header_value_Some in Hsig as [Hsig _].
      apply header_value_Some in Hvariant as [Hvariant _].
      exists (frame_variant f), (frame_key f).
      split; [assumption|]. split; [now rewrite Hsig, Hverify|].
      apply select_key_Some in Hkey as [[Hv Hk] | [Hv Hk]]; [left | right; auto].
      split; [assumption|]. split; [assumption|].
      exists (frame_data f). split; [assumption|].
      rewrite Hv in Hgate. rewrite andb_true_r in Hgate.
      apply not_local_app_false in Hgate. rewrite Happ.
      destruct Hgate as [-> | ->]; auto.
    + simpl in Hresp. injection Hresp as <-. contradiction.
    + discriminate Hresp.
Qed.

Lemma answered_requests_are_signed_witness :
  exists variant key,
    HTTP_X_SIGNATURE_KEY_VARIANT Scenario.production_preview = Some variant
    /\ HTTP_X_SIGNATURE_HMAC_SHA256_HEX Scenario.production_preview
       = Some (hmac_sha256_hex (body Scenario.production_preview) key)
    /\ (variant = "test" /\ key = "test-key"
        /\ (exists data,
              json_loads Scenario.env (body Scenario.production_preview) = Some data
              /\ (app_id_of data = Ok (JStr "") \/ app_id_of data = Ok (JStr "local")))
        \/ variant = "1" /\ key = cloudflare_secret_key Scenario.env).
Proof.
  apply (answered_requests_are_signed Scenario.env Scenario.production_preview
           (proceed_response (Fixture.value Fixture.empty_install))).
  - vm_compute. reflexivity.
  - discriminate.
Defined.

(** ** The production variant *)

(** X14. With variant [1] the key is the configured secret and the
    restriction on [app.id] does not apply: a request whose body parses,
    whose secondary authentication returns, whose event can be formatted
    and whose [app.id] can be read, whatever it is, is verified when body
    and secret are ASCII and it carries the hex HMAC-SHA256 of its body
    under that secret. *)
Theorem production_variant_accepts_any_app (env : Env) (request request' : Request)
  (data event app_id : json) (logging_data : LoggingData) :
  HTTP_X_SIGNATURE_KEY_VARIANT request = Some "1" ->
  HTTP_X_SIGNATURE_HMAC_SHA256_HEX request
  = Some (hmac_sha256_hex (body request) (cloudflare_secret_key env)) ->
  is_ascii (body request) = true ->
  is_ascii (cloudflare_secret_key env) = true ->
  json_loads env (body request) = Some data ->
  secondary_auth env request data (initial_logging_data request)
  = Ok (request', logging_data) ->
  dict_get data "event" JNull = Ok event ->
  formattable event = true ->
  app_id_of data = Ok app_id ->
  exists f,
    verified env request f
    /\ frame_key f = cloudflare_secret_key env
    /\ frame_request f = request'
    /\ frame_data f = data.
Proof.
  intros Hvariant Hsig Hbody Hsecret Hjson Hauth Hevent Hformat Happ.
  apply format_event_formattable in Hformat.
  assert (header_value (HTTP_X_SIGNATURE_HMAC_SHA256_HEX request)
          = Some (hmac_sha256_hex (body request) (cloudflare_secret_key env))) as Hheader.
  { rewrite Hsig. unfold header_value.
    pose proof (hmac_sha256_hex_length (body request) (cloudflare_secret_key env))
      as Hlen.
    destruct (hmac_sha256_hex _ _); [discriminate|reflexivity]. }
  unfold verified, post_checks.
  rewrite Hjson, Hauth, Hevent, Hformat, Hheader, Hvariant. simpl.
  rewrite Happ, andb_false_r.
  eexists. split; [split; [reflexivity|]|]; simpl.
  - apply verify_Ok_true. auto.
  - auto.
Qed.

Lemma production_variant_accepts_any_app_witness :
  exists f,
    verified Scenario.env Scenario.production_preview f
    /\ frame_key f = "production-secret"
    /\ frame_request f = Scenario.production_preview
    /\ frame_data f = Fixture.value (Fixture.event_payload "some-real-app" "preview").
Proof.
  apply (production_variant_accepts_any_app Scenario.env Scenario.production_preview
           Scenario.production_preview
           (Fixture.value (Fixture.event_payload "some-real-app" "preview"))
           (JStr "preview") (JStr "some-real-app")
           (initial_logging_data Scenario.production_preview)).
  - reflexivity.
  - reflexivity.
  - reflexivity.
  - reflexivity.
  - reflexivity.
  - reflexivity.
  - reflexivity.
  - reflexivity.
  - reflexivity.
Defined.

(** ** Preview and the events without a handler *)

(** X15. A verified [preview] of an unauthenticated caller is not refused:
    it is answered 200 with the payload's [install] as it came and
    [proceed: true], and the payload is untouched; for an authenticated
    caller it is answered as [on_account_change] answers. *)
Theorem preview_defers_or_starts_wizard (env : Env) (request : Request) (f : Frame) :
  verified env request f ->
  frame_event f = JStr "preview" ->
  (is_authenticated (user (frame_request f)) = false ->
   forall install,
     getitem (frame_data f) "install" = Ok install ->
     response (post env request) = Ok (proceed_response install)
     /\ data_after (post env request) = Some (frame_data f))
  /\ (is_authenticated (user (frame_request f)) = true ->
      response (post env request)
      = match on_account_change env (frame_request f) (frame_data f)
                (String.eqb (frame_variant f) "test") with
        | Ok (resp, _) => Ok resp
        | Raise e => Raise e
        end).
Proof.
  intros Hverified Hevent.
  rewrite (post_verified_request env request f Hverified).
  unfold dispatch, on_preview. rewrite Hevent. simpl str_eq. cbv iota. split.
  - intros Hanon install Hinstall. rewrite Hanon. simpl negb. cbv iota.
    unfold install_response. rewrite Hinstall. auto.
  - intros Hauth. rewrite Hauth. simpl negb. cbv iota.
    now destruct (on_account_change env _ _ _) as [[resp data']|e].
Qed.

Lemma preview_defers_or_starts_wizard_witness :
  response (post Scenario.env Scenario.preview)
  = Ok (proceed_response (Fixture.value Fixture.empty_install))
  /\ data_after (post Scenario.env Scenario.preview)
     = Some (Fixture.value (Fixture.event_payload "local" "preview")).
Proof.
  assert (exists f,
            verified Scenario.env Scenario.preview f
            /\ frame_event f = JStr "preview"
            /\ frame_request f = Scenario.preview
            /\ frame_data f = Fixture.value (Fixture.event_payload "local" "preview"))
    as (f & Hverified & Hevent & Hrequest & Hdata).
  { eexists. split; [split; [reflexivity|]|].
    - vm_compute. reflexivity.
    - repeat split. }
  destruct (preview_defers_or_starts_wizard Scenario.env Scenario.preview f
              Hverified Hevent) as [Hanon _].
  rewrite <- Hdata. apply Hanon.
  - now rewrite Hrequest.
  - now rewrite Hdata.
Defined.

(** X16. A verified request whose event is none of the four known names
    is answered by the echo, 200 with the payload's [install] and
    [proceed: true], whoever the caller is, and the payload is untouched;
    when the payload has no [install], the exception of that lookup
    escapes [post] instead. *)
Theorem unknown_event_is_echoed (env : Env) (request : Request) (f : Frame) :
  verified env request f ->
  frame_event f <> JStr "option-change:account" ->
  frame_event f <> JStr "option-change:organization" ->
  frame_event f <> JStr "option-change:project" ->
  frame_event f <> JStr "preview" ->
  (forall install,
     getitem (frame_data f) "install" = Ok install ->
     response (post env request) = Ok (proceed_response install)
     /\ data_after (post env request) = Some (frame_data f))
  /\ (forall e,
        getitem (frame_data f) "install" = Raise e ->
        response (post env request) = Raise e).
Proof.
  intros Hverified H1 H2 H3 H4.
  assert (forall name, frame_event f <> JStr name -> str_eq name (frame_event f) = false)
    as Hne.
  { intros name H. destruct (str_eq name (frame_event f)) eqn:E; [|reflexivity].
    destruct (frame_event f); simpl in E; try discriminate.
    apply String.eqb_eq in E. now subst. }
  rewrite (post_verified_request env request f Hverified).
  unfold dispatch. rewrite !Hne by assumption. unfold install_response. split.
  - intros install ->. auto.
  - now intros e ->.
Qed.

Lemma unknown_event_is_echoed_witness :
  response (post Scenario.env Scenario.uninstall)
  = Ok (proceed_response (Fixture.value Fixture.empty_install)).
Proof.
  assert (exists f,
            verified Scenario.env Scenario.uninstall f
            /\ frame_event f = JStr "uninstall"
            /\ frame_data f = Fixture.value (Fixture.event_payload "local" "uninstall"))
    as (f & Hverified & Hevent & Hdata).
  { eexists. split; [split; [reflexivity|]|].
    - vm_compute. reflexivity.
    - repeat split. }
  destruct (unknown_event_is_echoed Scenario.env Scenario.uninstall f Hverified)
    as [Hecho _]; try (rewrite Hevent; discriminate).
  apply Hecho. now rewrite Hdata.
Defined.

(** ** The caller and the embedded token *)

(** X17. For a caller who is already authenticated the embedded token
    plays no part: [post] leaves the request object as it received it, and
    its whole outcome is the same under any token resolver, so a token in
    the body that does not resolve raises nothing. *)
Theorem authenticated_caller_ignores_token (env : Env) (request : Request)
  (resolver : json -> option ApiToken) :
  is_authenticated (user request) = true ->
  request_after (post env request) = request
  /\ post (with_resolver env resolver) request = post env request.
Proof.
  intros Hauth. split.
  - unfold post, post_checks, secondary_auth. rewrite Hauth. simpl negb. cbv iota.
    unfold reject, escape, post_verified.
    case_split; reflexivity.
  - unfold post, post_checks, secondary_auth. rewrite Hauth. reflexivity.
Qed.

Lemma authenticated_caller_ignores_token_witness :
  request_after (post Scenario.env Scenario.member_with_stale_token)
  = Scenario.member_with_stale_token
  /\ post (with_resolver Scenario.env (fun _ => Some Scenario.member_token))
       Scenario.member_with_stale_token
     = post Scenario.env Scenario.member_with_stale_token.
Proof.
  apply authenticated_caller_ignores_token. reflexivity.
Defined.

(** ** Responses and error records *)

Lemma existsb_is_error_info (records : list LogRecord) :
  Forall (fun r => log_level r = INFO) records -> existsb is_error records = false.
Proof.
  induction 1 as [|r records Hr _ IH]; [reflexivity|].
  simpl. unfold is_error at 1. now rewrite Hr.
Qed.

(** X18. Every response [post] returns is the empty 400, the 401 with
    [proceed: false], or a 200 with an [install] and [proceed: true]; and
    it is the 400 exactly when the call logged an error record, which is
    then the last one. *)
Theorem responses_and_error_records (env : Env) (request : Request) :
  (forall resp,
     response (post env request) = Ok resp ->
     resp = bad_request
     \/ resp = unauthorized_response
     \/ exists install, resp = proceed_response install)
  /\ (response (post env request) = Ok bad_request
      <-> existsb is_error (log (post env request)) = true)
  /\ (response (post env request) = Ok bad_request ->
      exists records message logging_data,
        log (post env request)
        = (records ++ [log_record ERROR message logging_data])%list
        /\ existsb is_error records = false).
Proof.
  unfold post.
  destruct (post_checks env request) as [o|f] eqn:Hchecks.
  - apply post_checks_returned in Hchecks
      as [[Hbad (records & message & logging_data & Hlog & Hinfo)] | [[e He] Hinfo]].
    + rewrite Hbad, Hlog. split; [|split].
      * intros resp [= <-]. auto.
      * rewrite existsb_app. simpl. rewrite orb_true_r. tauto.
      * intros _. exists records, message, logging_data.
        split; [reflexivity|]. now apply existsb_is_error_info.
    + rewrite He, (existsb_is_error_info _ Hinfo). split; [|split].
      * discriminate.
      * split; discriminate.
      * discriminate.
  - pose proof (existsb_is_error_info _ (post_checks_frame_log _ _ _ Hchecks)) as Hinfo.
    unfold post_verified.
    destruct (verify (body request) (frame_key f) (frame_signature f)) as [[|]|e].
    3: { simpl. rewrite Hinfo. split; [|split]; try discriminate. split; discriminate. }
    2: { simpl. split; [|split].
         - intros resp [= <-]. auto.
         - rewrite existsb_app. simpl. rewrite orb_true_r. tauto.
         - intros _. eauto. }
    destruct (dispatch env _ _ _ _) as [[resp data']|e] eqn:Hdispatch; simpl.
    +
 apply dispatch_shape in Hdispatch. rewrite Hinfo. split; [|split].
      * intros resp0 [= <-]. auto.
      * split; [|discriminate]. intros [= ->].
        destruct Hdispatch as [H | [install H]]; discriminate H.
      * intros [= ->]. destruct Hdispatch as [H | [install H]]; discriminate H.
    + rewrite Hinfo. split; [|split]; try discriminate. split; discriminate.
Qed.

Lemma responses_and_error_records_witness :
  (exists records message logging_data,
     log (post Scenario.env Scenario.garbage)
     = (records ++ [log_record ERROR message logging_data])%list
     /\ existsb is_error records = false).
Proof.
  destruct (responses_and_error_records Scenario.env Scenario.garbage)
    as (_ & _ & Hlast).
  apply Hlast. reflexivity.
Defined.

(** ** A body that is not an object *)

(** X19. A body that parses to a JSON value other than an object is not
    answered 400: before anything is logged, [TypeError] escapes [post]
    from the token lookup when the caller is unauthenticated, and
    [AttributeError] from [data.get] otherwise. *)
Theorem non_object_body_raises (env : Env) (request : Request) (data : json) :
  json_loads env (body request) = Some data ->
  (forall d, data <> JDict d) ->
  response (post env request)
  = Raise (if is_authenticated (user request) then AttributeError else TypeError)
  /\ log (post env request) = [].
Proof.
  intros Hjson Hnot. unfold post, post_checks. rewrite Hjson.
  unfold secondary_auth, authenticate_from_json_token.
  destruct (is_authenticated (user request)); simpl;
    destruct data; try (split; reflexivity); now destruct (Hnot d).
Qed.

Lemma non_object_body_raises_witness :
  response (post Scenario.env Scenario.array_body) = Raise TypeError
  /\ log (post Scenario.env Scenario.array_body) = [].
Proof.
  apply (non_object_body_raises Scenario.env Scenario.array_body (JList [])).
  - reflexivity.
  - discriminate.
Defined.

(** ** Byte strings and text *)

(** X20. On an ASCII payload and key, [verify] computes the HMAC-SHA256 of
    RFC 2104 over the payload bytes, keyed by the key and hex-encoded: it
    returns [True] on that signature and [False] on every other string. *)
Theorem verify_accepts_exactly_the_hmac (payload secret : string) :
  is_ascii payload = true ->
  is_ascii secret = true ->
  verify payload secret (hmac_sha256_hex payload secret) = Ok true
  /\ forall signature : string,
       signature <> hmac_sha256_hex payload secret ->
       verify payload secret signature = Ok false.
Proof.
  intros Hpayload Hsecret. split.
  - apply verify_Ok_true. auto.
  - intros signature Hne.
    destruct (verify payload secret signature) as [[|]|e] eqn:E.
    + apply verify_Ok_true in E as (_ & _ & E). contradiction.
    + reflexivity.
    + unfold verify in E. rewrite expected_signature_ascii in E by assumption.
      discriminate E.
Qed.

Lemma verify_accepts_exactly_the_hmac_witness :
  verify "The quick brown fox jumps over the lazy dog" "key"
    "f7bc83f430538424b13298e6aa6fb143ef4d59a14946175997479dbc2d1a3cd8" = Ok true
  /\ verify "The quick brown fox jumps over the lazy dog" "key"
       "f7bc83f430538424b13298e6aa6fb143ef4d59a14946175997479dbc2d1a3cd9" = Ok false.
Proof.
  destruct (verify_accepts_exactly_the_hmac
              "The quick brown fox jumps over the lazy dog" "key") as [Hyes Hno].
  - reflexivity.
  - reflexivity.
  - rewrite hmac_sha256_hex_fox in Hyes, Hno. split.
    + exact Hyes.
    + apply Hno. discriminate.
Defined.

(** X21. An event that is text with a character outside ASCII stops
    [post] on line 193: [UnicodeEncodeError] escapes before the header
    checks, so the request is not answered 400 even without its headers,
    and nothing is logged; the secondary authentication has already taken
    place. *)
Theorem non_ascii_event_raises (env : Env) (request request' : Request)
  (data event : json) (logging_data : LoggingData) :
  json_loads env (body request) = Some data ->
  secondary_auth env request data (initial_logging_data request)
  = Ok (request', logging_data) ->
  dict_get data "event" JNull = Ok event ->
  formattable event = false ->
  post env request =
  {| response := Raise UnicodeEncodeError;
     request_after := request';
     data_after := Some data;
     log := [] |}.
Proof.
  intros Hjson Hauth Hevent Hformat.
  unfold post, post_checks, format_event.
  now rewrite Hjson, Hauth, Hevent, Hformat.
Qed.

Lemma non_ascii_event_raises_witness :
  post Scenario.env Scenario.accented_event =
  {| response := Raise UnicodeEncodeError;
     request_after := Scenario.accented_event;
     data_after := Some (Fixture.value (Fixture.event_payload "local" Fixture.cafe));
     log := [] |}.
Proof.
  apply (non_ascii_event_raises Scenario.env Scenario.accented_event
           Scenario.accented_event
           (Fixture.value (Fixture.event_payload "local" Fixture.cafe))
           (JStr Fixture.cafe)
           (initial_logging_data Scenario.accented_event)).
  - reflexivity.
  - reflexivity.
  - reflexivity.
  - reflexivity.
Defined.
